(** * Flash Transfer: the transfer lifecycle of [full_app.py]

    A shallow embedding of the three request handlers of [src/full_app.py]
    ([upload_files], [get_transfer_info], [download_transfer]) over an explicit
    world: the two SQLAlchemy tables, the upload directory and the number of
    [uuid.uuid4()] calls made so far.  The handlers are functions from a world to
    a response and a new world; the body of [upload_files] runs in a small
    state-and-exception monad whose [except] clause is the rollback. *)

From Stdlib Require Import ZArith Lia Strings.Ascii Strings.Byte.
From stdpp Require Import gmap strings list.

Local Open Scope Z_scope.
Local Open Scope string_scope.
Local Open Scope list_scope.

(** ** Database models (lines 32-52) *)

(** A row of [Transfer]; its primary key [id] is the key of the table. *)
Record Transfer := mkTransfer {
  plan_type : string;
  total_size : Z;
  file_count : nat;
  created_at : Z;
  expires_at : Z;
  download_count : nat;
  sender_email : option string;
  recipient_emails : option string
}.

(** A row of [File].  [row_id] is the column [id]. *)
Record File := mkFile {
  row_id : string;
  transfer_id : string;
  filename : string;
  original_filename : string;
  file_size : Z;
  file_path : string;
  uploaded_at : Z
}.

(** A [File(...)] object that was added to the session and not flushed yet: the
    constructor call of lines 104-110 sets five columns; [id] and [uploaded_at]
    have column defaults, which SQLAlchemy evaluates when the INSERT is emitted. *)
Record PendingFile := mkPending {
  p_transfer_id : string;
  p_filename : string;
  p_original_filename : string;
  p_file_size : Z;
  p_file_path : string
}.

(** ** The request and the responses *)

(** One part of the multipart field [files] as it arrives. *)
Record UploadPart := mkPart {
  part_filename : string;
  part_content : list byte
}.

(** A werkzeug [FileStorage]: the part with its stream position.
    [request.files.getlist('files')] returns the same objects on every call, so
    the position a loop leaves behind is the one the next loop finds. *)
Record FileStorage := mkStorage {
  fs_filename : string;
  fs_stream : list byte;
  fs_pos : nat
}.

(** A POST to /api/upload.  [framing] counts the bytes of the body that are not
    file content (boundaries, part headers, the other form fields). *)
Record Request := mkRequest {
  form_plan_type : option string;
  parts : list UploadPart;
  framing : nat
}.

(** An element of the [files] array of a JSON answer.  [entry_id] is what
    [file_record.id] evaluated to. *)
Record FileEntry := mkEntry {
  entry_id : option string;
  entry_name : string;
  entry_size : Z
}.

Inductive Exn :=
  | RequestEntityTooLarge
  | IntegrityError (table : string) (key : string)
  | OSError (path : string).

Inductive Response :=
  | UploadSuccess (tid : string) (files : list FileEntry) (expires : Z)
                  (download_url : string)
  | TransferSnapshot (tid : string) (t : Transfer) (files : list FileEntry)
  | SendFile (path : string) (download_name : string) (body : list byte)
  | JsonError (status : nat) (error : string)
  | CaughtError (e : Exn)
  | Unhandled (e : Exn).

(** The HTTP status of a response.  [CaughtError] is line 130; an exception that
    leaves a view unhandled is Flask's 500 as well. *)
Definition status (r : Response) : nat :=
  match r with
  | UploadSuccess _ _ _ _ | TransferSnapshot _ _ _ | SendFile _ _ _ => 200
  | JsonError s _ => s
  | CaughtError _ | Unhandled _ => 500
  end%nat.

(** ** The world *)

Record World := mkWorld {
  transfers : gmap string Transfer;
  file_rows : list File;
  blobs : gmap string (list byte);
  uuid_calls : nat
}.

(** ** Configuration (lines 12-23, 55-59) *)

Definition MAX_CONTENT_LENGTH : Z := 2 * 1024 * 1024 * 1024.
Definition RETENTION_DAYS : Z := 10.

(** Timestamps are microseconds, the resolution of [datetime]. *)
Definition timedelta_days (d : Z) : Z := d * 86400 * 1000000.

Definition PLAN_LIMITS : gmap string Z :=
  <["free" := 100 * 1024 * 1024 * 1024]>
  (<["standard" := 500 * 1024 * 1024 * 1024]>
  (<["premium" := 2 * 1024 * 1024 * 1024 * 1024]> ∅)).

(** [path.startswith('/')]. *)
Definition startswith_sep (s : string) : bool :=
  match s with
  | String c _ => bool_decide (c = "/"%char)
  | EmptyString => false
  end.

(** [path.endswith('/')]. *)
Fixpoint endswith_sep (s : string) : bool :=
  match s with
  | EmptyString => false
  | String c EmptyString => bool_decide (c = "/"%char)
  | String _ rest => endswith_sep rest
  end.

(** [os.path.join] of posixpath on two components. *)
Definition path_join (a b : string) : string :=
  if startswith_sep b then b
  else if bool_decide (a = "") || endswith_sep a
       then a +:+ b
       else a +:+ "/" +:+ b.

(** What the module takes from its surroundings. *)
Class Env := mkEnv {
  (** [BASE_DIR] (line 12): where the module is installed. *)
  BASE_DIR : string;
  (** The values successive calls of [uuid.uuid4()] return, rendered by [str]. *)
  uuid4 : nat -> string;
  (** Whether [file.save(path)] raises for a given store, path and content (a
      missing parent directory, a name the file system refuses, a full disk). *)
  save_raises : gmap string (list byte) -> string -> list byte -> bool
}.

(** ** Streams *)

(** [file.read()]: everything from the position on; the position moves to the end. *)
Definition fs_read (f : FileStorage) : list byte * FileStorage :=
  (drop (fs_pos f) (fs_stream f),
   mkStorage (fs_filename f) (fs_stream f) (length (fs_stream f))).

(** [file.seek(0)]. *)
Definition fs_seek0 (f : FileStorage) : FileStorage :=
  mkStorage (fs_filename f) (fs_stream f) 0.

Definition open_part (p : UploadPart) : FileStorage :=
  mkStorage (part_filename p) (part_content p) 0.

(** Lines 76-79: the loop that sums [len(file.read())] and rewinds every stream.
    It returns the sum and the streams as the loop leaves them. *)
Fixpoint measure_files (fl : list FileStorage) (total_size : Z)
  : Z * list FileStorage :=
  match fl with
  | [] => (total_size, [])
  | file :: rest =>
      let '(data, file1) := fs_read file in
      let file_size := Z.of_nat (length data) in
      let file2 := fs_seek0 file1 in
      let '(total, rest') := measure_files rest (total_size + file_size) in
      (total, file2 :: rest')
  end.

(** The bytes of a request body: the framing and every part's content. *)
Definition content_length (req : Request) : Z :=
  Z.of_nat (framing req)
  + foldr (fun p acc => Z.of_nat (length (part_content p)) + acc) 0 (parts req).

Section FlashTransfer.

Context {env : Env}.

Definition UPLOAD_DIR : string := path_join BASE_DIR "uploads".

(** Line 99: the name the blob is stored under. *)
Definition storage_filename (file_id original_filename : string) : string :=
  file_id +:+ "_" +:+ original_filename.

(** Line 100: the path handed to [file.save]. *)
Definition blob_path (file_id original_filename : string) : string :=
  path_join UPLOAD_DIR (storage_filename file_id original_filename).

(** *** The unit of work of one upload *)

(** What the handler's transaction sees and has touched: the two tables with the
    rows flushed so far, the objects added and not yet flushed, the upload
    directory and the uuid counter. *)
Record Tx := mkTx {
  tx_transfers : gmap string Transfer;
  tx_files : list File;
  tx_new : list PendingFile;
  tx_blobs : gmap string (list byte);
  tx_uuid_calls : nat
}.

Definition M (A : Type) : Type := Tx -> (Exn + A) * Tx.

Definition ret {A} (a : A) : M A := fun s => (inr a, s).
Definition raise {A} (e : Exn) : M A := fun s => (inl e, s).
Definition bind {A B} (m : M A) (k : A -> M B) : M B :=
  fun s => match m s with
           | (inr a, s') => k a s'
           | (inl e, s') => (inl e, s')
           end.

Notation "x <- m ;; k" := (bind m (fun x => k))
  (at level 100, m at next level, right associativity).
Notation "m ;;; k" := (bind m (fun _ => k))
  (at level 100, right associativity).

(** [str(uuid.uuid4())]. *)
Definition fresh_uuid : M string := fun s =>
  (inr (uuid4 (tx_uuid_calls s)),
   mkTx (tx_transfers s) (tx_files s) (tx_new s) (tx_blobs s)
        (S (tx_uuid_calls s))).

(** Lines 92-93: [db.session.add(transfer); db.session.flush()].  The INSERT
    evaluates the column default of [id]; a primary key that is already taken
    raises.  The new row has [download_count] 0, its column default. *)
Definition add_and_flush_transfer (t : Transfer) : M string :=
  tid <- fresh_uuid ;;
  fun s =>
    match tx_transfers s !! tid with
    | Some _ => raise (IntegrityError "transfer" tid) s
    | None =>
        (inr tid,
         mkTx (<[tid := t]> (tx_transfers s)) (tx_files s) (tx_new s)
              (tx_blobs s) (tx_uuid_calls s))
    end.

(** Line 102: [file.save(file_path)] copies the stream from its position on. *)
Definition save (file : FileStorage) (path : string) : M unit := fun s =>
  let data := drop (fs_pos file) (fs_stream file) in
  if save_raises (tx_blobs s) path data
  then raise (OSError path) s
  else (inr tt,
        mkTx (tx_transfers s) (tx_files s) (tx_new s)
             (<[path := data]> (tx_blobs s)) (tx_uuid_calls s)).

(** Line 108: [os.path.getsize(file_path)]. *)
Definition getsize (path : string) : M Z := fun s =>
  match tx_blobs s !! path with
  | Some data => (inr (Z.of_nat (length data)), s)
  | None => raise (OSError path) s
  end.

(** Line 111: [db.session.add(file_record)]. *)
Definition session_add (p : PendingFile) : M unit := fun s =>
  (inr tt,
   mkTx (tx_transfers s) (tx_files s) (tx_new s ++ [p]) (tx_blobs s)
        (tx_uuid_calls s)).

(** Lines 95-116: the loop over the parts.  A part without a filename is
    skipped.  [file_record.id] is read at line 113 before any flush, when the
    column default has not been evaluated: the entry's id is [None]. *)
Fixpoint store_files (tid : string) (fl : list FileStorage)
  (files_data : list FileEntry) : M (list FileEntry) :=
  match fl with
  | [] => ret files_data
  | file :: rest =>
      if bool_decide (fs_filename file = "") then store_files tid rest files_data
      else
        file_id <- fresh_uuid ;;
        let original_filename := fs_filename file in
        let filename := storage_filename file_id original_filename in
        let file_path := path_join UPLOAD_DIR filename in
        save file file_path ;;;
        size <- getsize file_path ;;
        let file_record :=
          mkPending tid filename original_filename size file_path in
        session_add file_record ;;;
        store_files tid rest
          (files_data ++ [mkEntry None original_filename size])
  end.

(** The INSERTs of the pending [File] objects, in the order they were added;
    each evaluates the column defaults of [id] and [uploaded_at]. *)
Fixpoint flush_files (pending : list PendingFile) (now : Z) : M unit :=
  match pending with
  | [] => ret tt
  | p :: rest =>
      fid <- fresh_uuid ;;
      (fun s =>
         if existsb (fun f => bool_decide (row_id f = fid)) (tx_files s)
         then raise (IntegrityError "file" fid) s
         else (inr tt,
               mkTx (tx_transfers s)
                    (tx_files s ++
                     [mkFile fid (p_transfer_id p) (p_filename p)
                             (p_original_filename p) (p_file_size p)
                             (p_file_path p) now])
                    (tx_new s) (tx_blobs s) (tx_uuid_calls s))) ;;;
      flush_files rest now
  end.

(** Line 118: [db.session.commit()] flushes what is pending. *)
Definition session_flush (now : Z) : M unit := fun s =>
  flush_files (tx_new s) now
    (mkTx (tx_transfers s) (tx_files s) [] (tx_blobs s) (tx_uuid_calls s)).

Definition begin (w : World) : Tx :=
  mkTx (transfers w) (file_rows w) [] (blobs w) (uuid_calls w).

(** COMMIT: the transaction's tables become the stored ones. *)
Definition commit (s : Tx) : World :=
  mkWorld (tx_transfers s) (tx_files s) (tx_blobs s) (tx_uuid_calls s).

(** [db.session.rollback()] (line 129): the tables are those of before; what was
    written to the upload directory stays, and so do the uuids drawn. *)
Definition rollback (w : World) (s : Tx) : World :=
  mkWorld (transfers w) (file_rows w) (tx_blobs s) (tx_uuid_calls s).

(** *** upload_files (lines 65-130) *)

Definition invalid_plan : Response := JsonError 400 "Invalid plan type".
Definition quota_exceeded (plan : string) : Response :=
  JsonError 400 ("File size exceeds " +:+ plan +:+ " plan limit").

(** Lines 86-126, the part of the [try] block that touches the session. *)
Definition create_transfer (plan : string) (total : Z) (fl : list FileStorage)
  (now : Z) : M Response :=
  let expires := now + timedelta_days RETENTION_DAYS in
  tid <- add_and_flush_transfer
           (mkTransfer plan total (length fl) now expires 0 None None) ;;
  files_data <- store_files tid fl [] ;;
  session_flush now ;;;
  ret (UploadSuccess tid files_data expires ("/download/" +:+ tid)).

(** Lines 70-130 for a parsed form: the plan check, the size loop, the quota
    check, then the transaction with its [except] clause. *)
Definition upload_parsed (w : World) (plan : string) (fl : list FileStorage)
  (now : Z) : Response * World :=
  match PLAN_LIMITS !! plan with
  | None => (invalid_plan, w)
  | Some limit =>
      let '(total, fl') := measure_files fl 0 in
      if total >? limit then (quota_exceeded plan, w)
      else
        match create_transfer plan total fl' now (begin w) with
        | (inr r, s) => (r, commit s)
        | (inl e, s) => (CaughtError e, rollback w s)
        end
  end.

(** The whole view.  Reading [request.form] at line 68 parses the body; Flask
    raises [RequestEntityTooLarge] there when the body is longer than
    [MAX_CONTENT_LENGTH], inside the [try], so line 128 catches it. *)
Definition upload_files (w : World) (req : Request) (now : Z)
  : Response * World :=
  if content_length req >? MAX_CONTENT_LENGTH
  then (CaughtError RequestEntityTooLarge, w)
  else
    upload_parsed w (default "free" (form_plan_type req))
                  (map open_part (parts req)) now.

(** *** get_transfer_info (lines 132-156) *)

(** [transfer.files]: the rows of [File] that point at the transfer, in the
    order they were inserted (the relationship has no [order_by]). *)
Definition files_of (w : World) (tid : string) : list File :=
  filter (fun f => transfer_id f = tid) (file_rows w).

Definition entry_of (f : File) : FileEntry :=
  mkEntry (Some (row_id f)) (original_filename f) (file_size f).

Definition not_found : Response := JsonError 404 "Transfer not found".
Definition expired : Response := JsonError 410 "Transfer has expired".
Definition no_files : Response := JsonError 404 "No files found".

Definition get_transfer_info (w : World) (tid : string) (now : Z)
  : Response * World :=
  match transfers w !! tid with
  | None => (not_found, w)
  | Some t =>
      if now >? expires_at t then (expired, w)
      else (TransferSnapshot tid t (map entry_of (files_of w tid)), w)
  end.

(** *** download_transfer (lines 158-178) *)

Definition set_download_count (n : nat) (t : Transfer) : Transfer :=
  mkTransfer (plan_type t) (total_size t) (file_count t) (created_at t)
             (expires_at t) n (sender_email t) (recipient_emails t).

(** Lines 160-165: the SELECT and the two checks.  The answer is either the
    response to return at once or the row as it was loaded. *)
Definition download_load (w : World) (tid : string) (now : Z)
  : Response + Transfer :=
  match transfers w !! tid with
  | None => inl not_found
  | Some t => if now >? expires_at t then inl expired else inr t
  end.

(** Lines 167-168: [transfer.download_count += 1] on the loaded object, then
    the commit, whose UPDATE sets the column to the value computed in Python. *)
Definition download_store (w : World) (tid : string) (loaded : Transfer)
  : World :=
  mkWorld (alter (set_download_count (S (download_count loaded))) tid
                 (transfers w))
          (file_rows w) (blobs w) (uuid_calls w).

(** Lines 170-178: the first file is sent; [send_file] raises when the path
    does not exist, and nothing in the view catches that. *)
Definition download_send (w : World) (tid : string) : Response :=
  match files_of w tid with
  | file_record :: _ =>
      match blobs w !! file_path file_record with
      | Some body =>
          SendFile (file_path file_record) (original_filename file_record) body
      | None => Unhandled (OSError (file_path file_record))
      end
  | [] => no_files
  end.

Definition download_transfer (w : World) (tid : string) (now : Z)
  : Response * World :=
  match download_load w tid now with
  | inl r => (r, w)
  | inr t =>
      let w' := download_store w tid t in
      (download_send w' tid, w')
  end.

(** *** Sequences of requests *)

(** The three routes that touch the store.  The module has no other entry point:
    nothing runs between two requests. *)
Inductive Op :=
  | Upload (req : Request) (now : Z)
  | Info (tid : string) (now : Z)
  | Download (tid : string) (now : Z).

Definition exec (w : World) (op : Op) : Response * World :=
  match op with
  | Upload req now => upload_files w req now
  | Info tid now => get_transfer_info w tid now
  | Download tid now => download_transfer w tid now
  end.

(** Requests served one after the other; the log pairs each with its answer. *)
Fixpoint run (w : World) (ops : list Op) : list (Op * Response) * World :=
  match ops with
  | [] => ([], w)
  | op :: rest =>
      let '(r, w1) := exec w op in
      let '(log, w2) := run w1 rest in
      ((op, r) :: log, w2)
  end.

(** *** Overlapping downloads *)





(** *** What an accepted upload leaves behind *)

(** The objects the loop of lines 95-116 adds to the session when the uuid
    counter stands at [k]: one for every part that has a filename. *)
Fixpoint pending_for (tid : string) (k : nat) (fl : list FileStorage)
  : list PendingFile :=
  match fl with
  | [] => []
  | f :: rest =>
      if bool_decide (fs_filename f = "") then pending_for tid k rest
      else
        mkPending tid (storage_filename (uuid4 k) (fs_filename f))
                  (fs_filename f)
                  (Z.of_nat (length (drop (fs_pos f) (fs_stream f))))
                  (blob_path (uuid4 k) (fs_filename f))
        :: pending_for tid (S k) rest
  end.

(** The rows the commit inserts for them when the counter stands at [k]. *)
Fixpoint rows_for (k : nat) (now : Z) (pending : list PendingFile)
  : list File :=
  match pending with
  | [] => []
  | p :: rest =>
      mkFile (uuid4 k) (p_transfer_id p) (p_filename p)
             (p_original_filename p) (p_file_size p) (p_file_path p) now
      :: rows_for (S k) now rest
  end.

(** The parts of a request that line 96 lets through. *)
Definition named (ps : list UploadPart) : list UploadPart :=
  filter (fun p => part_filename p <> "") ps.

(** The [file.save] calls of the loop of lines 95-116 when the uuid counter
    stands at [k]: the path and the bytes of each, in order. *)
Fixpoint writes_for (k : nat) (fl : list FileStorage)
  : list (string * list byte) :=
  match fl with
  | [] => []
  | f :: rest =>
      if bool_decide (fs_filename f = "") then writes_for k rest
      else (blob_path (uuid4 k) (fs_filename f),
            drop (fs_pos f) (fs_stream f))
           :: writes_for (S k) rest
  end.

End FlashTransfer.

(** ** Reading a path *)

Fixpoint has_char (c : ascii) (s : string) : bool :=
  match s with
  | EmptyString => false
  | String c' rest => bool_decide (c' = c) || has_char c rest
  end.




(** ** Quantities the properties speak of *)

(** The element of [files_data] line 112 appends for a pending object. *)
Definition entry_of_pending (p : PendingFile) : FileEntry :=
  mkEntry None (p_original_filename p) (p_file_size p).

(** The bytes a list of streams still holds. *)
Definition payload (fl : list FileStorage) : Z :=
  foldr (fun f acc => Z.of_nat (length (drop (fs_pos f) (fs_stream f))) + acc)
        0 fl.

(** [sum(file.file_size for file in files)]. *)
Definition sum_file_sizes (fs : list File) : Z :=
  foldr (fun f acc => file_size f + acc) 0 fs.

(** What a transaction may do to what it started from: add transfers, append
    file rows, write blobs, draw uuids. *)
Definition grows (s s' : Tx) : Prop :=
  tx_transfers s ⊆ tx_transfers s'
  /\ tx_files s `prefix_of` tx_files s'
  /\ dom (tx_blobs s) ⊆ dom (tx_blobs s')
  /\ (tx_uuid_calls s <= tx_uuid_calls s')%nat.

Definition preserving {A} (m : M A) : Prop :=
  forall s r s', m s = (r, s') -> grows s s'.

(** What requests may do to the store: a transfer stays, with every column but
    [download_count] as it was and the counter no smaller; file rows are only
    appended; a path that held a blob still holds one. *)
Definition persists (w w' : World) : Prop :=
  (forall tid t, transfers w !! tid = Some t ->
     exists n, (download_count t <= n)%nat
               /\ transfers w' !! tid = Some (set_download_count n t))
  /\ file_rows w `prefix_of` file_rows w'
  /\ (forall path, is_Some (blobs w !! path) -> is_Some (blobs w' !! path)).

#[global] Instance Transfer_eq_dec : EqDecision Transfer.
Proof. solve_decision. Defined.
#[global] Instance FileEntry_eq_dec : EqDecision FileEntry.
Proof. solve_decision. Defined.
#[global] Instance Exn_eq_dec : EqDecision Exn.
Proof. solve_decision. Defined.
#[global] Instance byte_eq_dec : EqDecision byte.
Proof. intros a b. destruct (Byte.eqb a b) eqn:E.
  - left. by apply Byte.byte_dec_bl.
  - right. intros ->. by rewrite Byte.byte_dec_lb in E.
Defined.
#[global] Instance Response_eq_dec : EqDecision Response.
Proof. solve_decision. Defined.

(** A download that got past the existence and expiry checks of lines 160-165. *)
Definition passed_checks (r : Response) : bool :=
  negb (bool_decide (r = not_found) || bool_decide (r = expired)).

(** The entries of a log that are such downloads of [tid]. *)
Definition counted (tid : string) (e : Op * Response) : bool :=
  match e with
  | (Download tid' _, r) => bool_decide (tid' = tid) && passed_checks r
  | _ => false
  end.



(** The downloads of [tid] in a log that got past the checks. *)
Definition downloads_counted (tid : string) (log : list (Op * Response)) : nat :=
  length (filter (fun e => counted tid e = true) log).


(** A sequence of writes applied to a blob store, the later over the earlier. *)
Definition apply_writes (store : gmap string (list byte))
  (writes : list (string * list byte)) : gmap string (list byte) :=
  foldl (fun b kv => <[kv.1 := kv.2]> b) store writes.

(** What holds of a store that requests have built: every file row points at
    a stored transfer and at a path that holds a blob; a transfer has at most
    [file_count] rows, of sizes that are not negative and sum to at most
    [total_size]. *)
Definition store_ok (w : World) : Prop :=
  (forall f, f ∈ file_rows w ->
     is_Some (transfers w !! transfer_id f)
     /\ is_Some (blobs w !! file_path f)
     /\ 0 <= file_size f)
  /\ (forall tid t, transfers w !! tid = Some t ->
        (length (files_of w tid) <= file_count t)%nat
        /\ sum_file_sizes (files_of w tid) <= total_size t).

(** ** A concrete environment *)

Definition hex_digit (n : nat) : ascii :=
  default "0"%char (String.get (n mod 16) "0123456789abcdef").

(** A generator of well-formed version 4 uuids that never repeats below 256. *)
Definition demo_uuid4 (n : nat) : string :=
  "00000000-0000-4000-8000-0000000000"
  +:+ String (hex_digit (n / 16)) (String (hex_digit n) "").

Fixpoint string_drop (n : nat) (s : string) : string :=
  match n, s with
  | O, _ => s
  | S n', String _ rest => string_drop n' rest
  | S _, EmptyString => ""
  end.

(** A file system where only the upload directory exists: saving under a
    storage name with a "/" in it fails, its directory being absent. *)
Definition demo_save_raises (store : gmap string (list byte)) (path : string)
  (data : list byte) : bool :=
  has_char "/" (string_drop (String.length "/srv/flash/uploads/") path).

Definition demo_env : Env := mkEnv "/srv/flash" demo_uuid4 demo_save_raises.

Definition empty_world : World := mkWorld ∅ [] ∅ 0.

Definition report_pdf : UploadPart := mkPart "report.pdf" [x25; x50; x44; x46].
Definition notes_txt : UploadPart := mkPart "notes.txt" [x68; x69].
Definition nested_name : UploadPart := mkPart "a/b.txt" [x61].
Definition unnamed_part : UploadPart := mkPart "" [x61; x62; x63].

(** Ten o'clock on some day, and one second. *)
Definition t0 : Z := 1700000000000000.
Definition second : Z := 1000000.

(** Requests used below. *)
Definition two_files : Request := mkRequest None [report_pdf; notes_txt] 200.
Definition failing_request : Request :=
  mkRequest (Some "standard") [report_pdf; nested_name; notes_txt] 300.
Definition empty_request : Request := mkRequest None [] 120.
Definition unnamed_request : Request := mkRequest None [unnamed_part] 150.

(** The store after [two_files] was uploaded into the empty one. *)
Definition stored_world : World :=
  snd (@upload_files demo_env empty_world two_files t0).
Definition stored_tid : string := demo_uuid4 0.

(** The store after the second of three blobs could not be saved. *)
Definition after_failure : World :=
  snd (@upload_files demo_env empty_world failing_request t0).

(** The store after a request without file parts. *)
Definition after_empty_upload : World :=
  snd (@upload_files demo_env empty_world empty_request t0).

(** One second after the transfers created at [t0] have expired. *)
Definition late : Z := t0 + timedelta_days RETENTION_DAYS + second.

(** * Properties *)

Section Properties.

Context {env : Env}.

(** ** Comparisons *)

Lemma gtb_false x y : x <= y -> (x >? y) = false.
Proof. intros H. rewrite Z.gtb_ltb. apply Z.ltb_ge. lia. Qed.

Lemma gtb_true x y : y < x -> (x >? y) = true.
Proof. intros H. apply Z.gtb_lt. lia. Qed.

(** ** The size loop *)

Lemma measure_files_spec fl acc :
  measure_files fl acc = (acc + payload fl, map fs_seek0 fl).
Proof.
  revert acc. induction fl as [|f fl IH]; intros acc; simpl.
  - f_equal. lia.
  - rewrite IH. f_equal. lia.
Qed.

Lemma payload_open ps :
  payload (map open_part ps)
  = foldr (fun p acc => Z.of_nat (length (part_content p)) + acc) 0 ps.
Proof. induction ps as [|p ps IH]; simpl; [done|]. by rewrite IH. Qed.

Lemma payload_seek0_open ps :
  map fs_seek0 (map open_part ps) = map open_part ps.
Proof. induction ps as [|p ps IH]; simpl; [done|]. by rewrite IH. Qed.

(** ** The plan table *)

Lemma PLAN_LIMITS_Some plan limit :
  PLAN_LIMITS !! plan = Some limit ->
  (plan = "free" /\ limit = 107374182400)
  \/ (plan = "standard" /\ limit = 536870912000)
  \/ (plan = "premium" /\ limit = 2199023255552).
Proof.
  unfold PLAN_LIMITS. intros H.
  apply lookup_insert_Some in H as [[<- <-]|[_ H]]; [left; done|].
  apply lookup_insert_Some in H as [[<- <-]|[_ H]]; [right; left; done|].
  apply lookup_insert_Some in H as [[<- <-]|[_ H]]; [right; right; done|].
  by rewrite lookup_empty in H.
Qed.

(** ** What the transaction's steps preserve *)

#[local] Instance grows_preorder : PreOrder grows.
Proof.
  split.
  - intros s. by repeat split.
  - intros s1 s2 s3 (A1 & B1 & C1 & D1) (A2 & B2 & C2 & D2).
    repeat split; [by etrans | by etrans | by etrans | lia].
Qed.

Lemma preserving_ret {A} (a : A) : preserving (ret a).
Proof. intros s r s' [= <- <-]. reflexivity. Qed.

Lemma preserving_bind {A B} (m : M A) (k : A -> M B) :
  preserving m -> (forall a, preserving (k a)) -> preserving (bind m k).
Proof.
  intros Hm Hk s r s'. unfold bind.
  destruct (m s) as [[e|a] s1] eqn:E.
  - intros [= <- <-]. eauto.
  - intros Hk'. etrans; [eapply Hm, E | eapply Hk, Hk'].
Qed.

Lemma preserving_fresh_uuid : preserving fresh_uuid.
Proof.
  intros s r s' [= <- <-]. repeat split; simpl; [done..|lia].
Qed.

Lemma preserving_add_and_flush_transfer t :
  preserving (add_and_flush_transfer t).
Proof.
  apply preserving_bind; [apply preserving_fresh_uuid|].
  intros tid s r s'. destruct (tx_transfers s !! tid) eqn:E.
  - intros [= <- <-]. reflexivity.
  - intros [= <- <-]. repeat split; simpl; [|done..].
    by apply insert_subseteq.
Qed.

Lemma preserving_save file path : preserving (save file path).
Proof.
  intros s r s'. unfold save.
  destruct (save_raises _ _ _); intros [= <- <-]; [reflexivity|].
  repeat split; simpl; [done..| |done].
  rewrite dom_insert. set_solver.
Qed.

Lemma preserving_getsize path : preserving (getsize path).
Proof.
  intros s r s'. unfold getsize.
  destruct (tx_blobs s !! path); intros [= <- <-]; reflexivity.
Qed.

Lemma preserving_session_add p : preserving (session_add p).
Proof. intros s r s' [= <- <-]. by repeat split. Qed.

Lemma preserving_store_files tid fl files_data :
  preserving (store_files tid fl files_data).
Proof.
  revert files_data. induction fl as [|f fl IH]; intros files_data; simpl.
  - apply preserving_ret.
  - case_bool_decide; [apply IH|].
    apply preserving_bind; [apply preserving_fresh_uuid|]. intros file_id.
    apply preserving_bind; [apply preserving_save|]. intros _.
    apply preserving_bind; [apply preserving_getsize|]. intros size.
    apply preserving_bind; [apply preserving_session_add|]. intros _.
    apply IH.
Qed.

Lemma preserving_flush_files pending now :
  preserving (flush_files pending now).
Proof.
  induction pending as [|p pending IH]; simpl.
  - apply preserving_ret.
  - apply preserving_bind; [apply preserving_fresh_uuid|]. intros fid.
    apply preserving_bind; [|intros _; apply IH].
    intros s r s'. destruct (existsb _ _); intros [= <- <-]; [reflexivity|].
    repeat split; simpl; [done| |done..].
    by apply prefix_app_r.
Qed.

Lemma preserving_session_flush now : preserving (session_flush now).
Proof.
  intros s r s' H. unfold session_flush in H.
  apply preserving_flush_files in H.
  destruct H as (A & B & C & D). by repeat split.
Qed.

Lemma preserving_create_transfer plan total fl now :
  preserving (create_transfer plan total fl now).
Proof.
  unfold create_transfer.
  apply preserving_bind; [apply preserving_add_and_flush_transfer|]. intros tid.
  apply preserving_bind; [apply preserving_store_files|]. intros fd.
  apply preserving_bind; [apply preserving_session_flush|]. intros _.
  apply preserving_ret.
Qed.

(** A transaction that ends without an exception answers with the success
    document of lines 120-126. *)
Lemma create_transfer_inr plan total fl now s r s' :
  create_transfer plan total fl now s = (inr r, s') ->
  exists tid fd,
    r = UploadSuccess tid fd (now + timedelta_days RETENTION_DAYS)
                      ("/download/" +:+ tid).
Proof.
  unfold create_transfer, bind.
  destruct (add_and_flush_transfer _ s) as [[e|tid] s1]; [done|].
  destruct (store_files tid fl [] s1) as [[e|fd] s2]; [done|].
  destruct (session_flush now s2) as [[e|[]] s3]; [done|].
  intros [= <- <-]. eauto.
Qed.

(** ** upload_files *)

Lemma upload_parsed_unfold w plan fl now :
  upload_parsed w plan fl now =
  match PLAN_LIMITS !! plan with
  | None => (invalid_plan, w)
  | Some limit =>
      if payload fl >? limit then (quota_exceeded plan, w)
      else match create_transfer plan (payload fl) (map fs_seek0 fl) now
                                 (begin w) with
           | (inr r, s) => (r, commit s)
           | (inl e, s) => (CaughtError e, rollback w s)
           end
  end.
Proof.
  unfold upload_parsed. destruct (PLAN_LIMITS !! plan); [|done].
  by rewrite measure_files_spec, Z.add_0_l.
Qed.

(** An upload that does not answer 200 leaves both tables as they were. *)
Lemma upload_parsed_not_ok w plan fl now :
  status (fst (upload_parsed w plan fl now)) <> 200%nat ->
  transfers (snd (upload_parsed w plan fl now)) = transfers w
  /\ file_rows (snd (upload_parsed w plan fl now)) = file_rows w.
Proof.
  rewrite upload_parsed_unfold.
  destruct (PLAN_LIMITS !! plan) as [limit|]; [|done].
  destruct (payload fl >? limit); [done|].
  destruct (create_transfer _ _ _ _ _) as [[e|r] s] eqn:E; [done|].
  apply create_transfer_inr in E as (tid & fd & ->). simpl. done.
Qed.

(** C3: the upload of a parsed form is refused with "Invalid plan type" when
    the plan is not a key of [PLAN_LIMITS], and otherwise answers 400 exactly
    when the bytes of the files exceed the plan's limit (free 100 GiB, standard
    500 GiB, premium 2 TiB); either refusal returns the world it was given, so
    no row was created and no blob written. *)
Theorem quota_check_decides w plan fl now :
  (PLAN_LIMITS !! plan = None ->
     upload_parsed w plan fl now = (invalid_plan, w))
  /\ (forall limit, PLAN_LIMITS !! plan = Some limit ->
        (status (fst (upload_parsed w plan fl now)) = 400%nat
           <-> payload fl > limit)
        /\ (payload fl > limit ->
              upload_parsed w plan fl now = (quota_exceeded plan, w)))
  /\ PLAN_LIMITS !! "free" = Some (100 * 1024 ^ 3)
  /\ PLAN_LIMITS !! "standard" = Some (500 * 1024 ^ 3)
  /\ PLAN_LIMITS !! "premium" = Some (2 * 1024 ^ 4)
  /\ (forall p, is_Some (PLAN_LIMITS !! p)
                <-> p = "free" \/ p = "standard" \/ p = "premium").
Proof.
  split; [|split; [|split; [|split; [|split]]]]; try done.
  - intros H. rewrite upload_parsed_unfold. by rewrite H.
  - intros limit H. rewrite upload_parsed_unfold, H.
    destruct (payload fl >? limit) eqn:Q.
    + apply Z.gtb_lt in Q. split; [|done]. simpl. split; [lia|done].
    + assert (payload fl <= limit) by (rewrite Z.gtb_ltb in Q; lia).
      split; [|lia].
      destruct (create_transfer _ _ _ _ _) as [[e|r] s] eqn:E; simpl.
      * split; [done|lia].
      * apply create_transfer_inr in E as (tid & fd & ->). simpl.
        split; [done|lia].
  - intros p. split.
    + intros [limit H].
      apply PLAN_LIMITS_Some in H as [[-> _] | [[-> _] | [-> _]]]; auto.
    + intros [-> | [-> | ->]]; by eexists.
Qed.

(** C1: when [upload_files] ends in its [except] clause, the two tables are
    those of before the request, every [get_transfer_info] answers as it did
    before, and the identifier the transfer was given, when it was not taken
    already, is not found. *)
Theorem failed_upload_is_invisible w req now e w' :
  upload_files w req now = (CaughtError e, w') ->
  transfers w' = transfers w
  /\ file_rows w' = file_rows w
  /\ (forall tid now',
        fst (get_transfer_info w' tid now') = fst (get_transfer_info w tid now'))
  /\ (transfers w !! uuid4 (uuid_calls w) = None ->
      forall now',
        fst (get_transfer_info w' (uuid4 (uuid_calls w)) now') = not_found).
Proof.
  intros H.
  assert (transfers w' = transfers w /\ file_rows w' = file_rows w) as [Ht Hf].
  { unfold upload_files in H. destruct (content_length req >? _).
    - by injection H as _ <-.
    - pose proof (upload_parsed_not_ok w (default "free" (form_plan_type req))
                    (map open_part (parts req)) now) as P.
      rewrite H in P. simpl in P. apply P. lia. }
  assert (forall tid now',
            fst (get_transfer_info w' tid now')
            = fst (get_transfer_info w tid now')) as Hg.
  { intros tid now'. unfold get_transfer_info, files_of. rewrite Ht, Hf.
    destruct (transfers w !! tid) as [t|]; [|done].
    by destruct (now' >? expires_at t). }
  repeat split; [done..|].
  intros Hfresh now'. rewrite Hg. unfold get_transfer_info. by rewrite Hfresh.
Qed.

(** C10: a body longer than [MAX_CONTENT_LENGTH] (2 GiB) is refused at line 68
    whatever the plan, every plan's limit is above that cap, and so no request
    is ever answered with the quota refusal of lines 81-84. *)
Theorem quota_refusal_unreachable w req now :
  MAX_CONTENT_LENGTH = 2 * 1024 ^ 3
  /\ (forall plan limit,
        PLAN_LIMITS !! plan = Some limit -> MAX_CONTENT_LENGTH < limit)
  /\ (content_length req > MAX_CONTENT_LENGTH ->
        upload_files w req now = (CaughtError RequestEntityTooLarge, w))
  /\ (forall plan, fst (upload_files w req now) <> quota_exceeded plan).
Proof.
  assert (forall plan limit,
            PLAN_LIMITS !! plan = Some limit -> MAX_CONTENT_LENGTH < limit) as L.
  { intros plan limit H. unfold MAX_CONTENT_LENGTH.
    apply PLAN_LIMITS_Some in H as [[_ ->]|[[_ ->]|[_ ->]]]; lia. }
  split; [done|]. split; [done|]. unfold upload_files. split.
  - intros H. apply Z.gt_lt, Z.gtb_lt in H. by rewrite H.
  - intros plan. destruct (content_length req >? MAX_CONTENT_LENGTH) eqn:C;
      [done|].
    rewrite upload_parsed_unfold.
    destruct (PLAN_LIMITS !! _) as [limit|] eqn:P; [|done].
    assert (payload (map open_part (parts req)) <= MAX_CONTENT_LENGTH) as B.
    { rewrite payload_open. unfold content_length in C.
      rewrite Z.gtb_ltb in C. apply Z.ltb_ge in C. lia. }
    apply L in P.
    rewrite gtb_false by lia.
    destruct (create_transfer _ _ _ _ _) as [[e|r] s] eqn:E; [done|].
    apply create_transfer_inr in E as (tid & fd & ->). done.
Qed.

(** C6 as the code has it: a request with no file part, a recognised plan and
    a body within the cap is accepted.  It answers with the success document
    and commits a transfer of size 0 and file count 0, with no file row. *)
Theorem empty_upload_is_accepted w req now limit :
  parts req = [] ->
  Z.of_nat (framing req) <= MAX_CONTENT_LENGTH ->
  PLAN_LIMITS !! default "free" (form_plan_type req) = Some limit ->
  transfers w !! uuid4 (uuid_calls w) = None ->
  upload_files w req now =
    (UploadSuccess (uuid4 (uuid_calls w)) []
                   (now + timedelta_days RETENTION_DAYS)
                   ("/download/" +:+ uuid4 (uuid_calls w)),
     mkWorld (<[uuid4 (uuid_calls w) :=
                  mkTransfer (default "free" (form_plan_type req)) 0 0 now
                             (now + timedelta_days RETENTION_DAYS) 0 None None]>
                (transfers w))
             (file_rows w) (blobs w) (S (uuid_calls w))).
Proof.
  intros Hp Hc Hl Hf. unfold upload_files, content_length. rewrite Hp. simpl.
  rewrite gtb_false by lia.
  unfold upload_parsed. rewrite Hl. simpl.
  assert (0 < limit) by (apply PLAN_LIMITS_Some in Hl; lia).
  rewrite gtb_false by lia.
  unfold create_transfer, bind, add_and_flush_transfer, bind, fresh_uuid, begin.
  simpl. rewrite Hf. simpl. done.
Qed.

(** ** What requests preserve *)

Lemma set_download_count_same t : set_download_count (download_count t) t = t.
Proof. by destruct t. Qed.

#[local] Instance persists_preorder : PreOrder persists.
Proof.
  split.
  - intros w. split; [|done]. intros tid t H. exists (download_count t).
    by rewrite set_download_count_same.
  - intros w1 w2 w3 (A1 & B1 & C1) (A2 & B2 & C2). repeat split.
    + intros tid t H. destruct (A1 _ _ H) as (n & Hn & H2).
      destruct (A2 _ _ H2) as (m & Hm & H3). exists m. simpl in *.
      split; [lia|]. by rewrite H3.
    + by etrans.
    + auto.
Qed.

(** An upload leaves every stored transfer exactly as it was. *)
Lemma upload_parsed_keeps_rows w plan fl now tid t :
  transfers w !! tid = Some t ->
  transfers (snd (upload_parsed w plan fl now)) !! tid = Some t.
Proof.
  intros H. rewrite upload_parsed_unfold.
  destruct (PLAN_LIMITS !! plan) as [limit|]; [|done].
  destruct (payload fl >? limit); [done|].
  destruct (create_transfer _ _ _ _ _) as [[e|r] s] eqn:E; [done|].
  apply preserving_create_transfer in E as (A & _). simpl.
  by eapply lookup_weaken.
Qed.

Lemma upload_parsed_persists w plan fl now :
  persists w (snd (upload_parsed w plan fl now)).
Proof.
  split; [|split].
  - intros tid t H. exists (download_count t). split; [done|].
    rewrite set_download_count_same. by apply upload_parsed_keeps_rows.
  - rewrite upload_parsed_unfold.
    destruct (PLAN_LIMITS !! plan) as [limit|]; [|done].
    destruct (payload fl >? limit); [done|].
    destruct (create_transfer _ _ _ _ _) as [[e|r] s] eqn:E; [done|].
    by apply preserving_create_transfer in E as (_ & B & _).
  - intros path H. rewrite upload_parsed_unfold.
    destruct (PLAN_LIMITS !! plan) as [limit|]; [|done].
    destruct (payload fl >? limit); [done|].
    destruct (create_transfer _ _ _ _ _) as [[e|r] s] eqn:E;
      apply preserving_create_transfer in E as (_ & _ & C & _); simpl in *;
      apply elem_of_dom, C, elem_of_dom, H.
Qed.

Lemma upload_files_keeps_rows w req now tid t :
  transfers w !! tid = Some t ->
  transfers (snd (upload_files w req now)) !! tid = Some t.
Proof.
  intros H. unfold upload_files. destruct (_ >? _); [done|].
  by apply upload_parsed_keeps_rows.
Qed.

Lemma upload_files_persists w req now :
  persists w (snd (upload_files w req now)).
Proof.
  unfold upload_files. destruct (_ >? _); [reflexivity|].
  apply upload_parsed_persists.
Qed.

Lemma get_transfer_info_pure w tid now : snd (get_transfer_info w tid now) = w.
Proof.
  unfold get_transfer_info. destruct (transfers w !! tid) as [t|]; [|done].
  by destruct (now >? expires_at t).
Qed.

(** What a download that is let through stores, and that its answer is never
    one of the two refusals of lines 160-165. *)
Lemma download_transfer_let_through w tid now t :
  transfers w !! tid = Some t -> now <= expires_at t ->
  download_transfer w tid now
  = (download_send (download_store w tid t) tid, download_store w tid t)
  /\ transfers (download_store w tid t) !! tid
     = Some (set_download_count (S (download_count t)) t)
  /\ passed_checks (download_send (download_store w tid t) tid) = true.
Proof.
  intros H Hn. unfold download_transfer, download_load. rewrite H.
  rewrite gtb_false by lia.
  split; [done|]. split.
  - simpl. by rewrite lookup_alter_eq, H.
  - unfold download_send, passed_checks.
    destruct (files_of _ _) as [|f fs]; [done|].
    by destruct (blobs _ !! _).
Qed.

Lemma download_transfer_refused w tid now t :
  transfers w !! tid = Some t -> expires_at t < now ->
  download_transfer w tid now = (expired, w).
Proof.
  intros H Hn. unfold download_transfer, download_load. rewrite H.
  by rewrite gtb_true by lia.
Qed.

Lemma download_transfer_other w tid tid' now t :
  tid' <> tid -> transfers w !! tid = Some t ->
  transfers (snd (download_transfer w tid' now)) !! tid = Some t.
Proof.
  intros Hne H. unfold download_transfer.
  destruct (download_load w tid' now) as [r|t']; [done|].
  simpl. by rewrite lookup_alter_ne.
Qed.

Lemma download_transfer_persists w tid now :
  persists w (snd (download_transfer w tid now)).
Proof.
  unfold download_transfer, download_load.
  destruct (transfers w !! tid) as [t|] eqn:H; [|reflexivity].
  destruct (now >? expires_at t); [reflexivity|].
  split; [|done]. intros tid' t' H'. simpl.
  destruct (decide (tid = tid')) as [<-|Hne].
  - rewrite lookup_alter_eq, H'. simpl. exists (S (download_count t)).
    assert (t' = t) as -> by congruence. split; [lia|done].
  - rewrite lookup_alter_ne by done. exists (download_count t').
    by rewrite set_download_count_same.
Qed.

Lemma exec_persists w op : persists w (snd (exec w op)).
Proof.
  destruct op as [req now|tid now|tid now]; simpl.
  - apply upload_files_persists.
  - by rewrite get_transfer_info_pure.
  - apply download_transfer_persists.
Qed.

Lemma run_cons w op rest :
  run w (op :: rest)
  = ((op, fst (exec w op)) :: fst (run (snd (exec w op)) rest),
     snd (run (snd (exec w op)) rest)).
Proof.
  simpl. destruct (exec w op) as [r w1]. simpl.
  by destruct (run w1 rest) as [log w2].
Qed.

Lemma run_persists w ops : persists w (snd (run w ops)).
Proof.
  revert w. induction ops as [|op rest IH]; intros w; [reflexivity|].
  rewrite run_cons. simpl. etrans; [apply exec_persists | apply IH].
Qed.

(** One request moves the counter of [tid] by one when it is a download of
    [tid] that got past the checks, and not at all otherwise. *)
Lemma exec_counts w op tid t :
  transfers w !! tid = Some t ->
  transfers (snd (exec w op)) !! tid
  = Some (set_download_count
            (download_count t
             + (if counted tid (op, fst (exec w op)) then 1 else 0))%nat t).
Proof.
  intros H. destruct op as [req now|tid' now|tid' now]; simpl.
  - rewrite Nat.add_0_r, set_download_count_same.
    by apply upload_files_keeps_rows.
  - by rewrite get_transfer_info_pure, Nat.add_0_r, set_download_count_same.
  - case_bool_decide as Heq; simpl.
    + subst tid'. destruct (Z_le_gt_dec now (expires_at t)) as [Hn|Hn].
      * destruct (download_transfer_let_through _ _ _ _ H Hn) as (-> & Hs & Hp).
        cbn [fst snd]. rewrite Hp, Hs. by rewrite Nat.add_1_r.
      * rewrite (download_transfer_refused _ _ _ _ H) by lia. simpl.
        by rewrite Nat.add_0_r, set_download_count_same.
    + rewrite Nat.add_0_r, set_download_count_same.
      by apply download_transfer_other.
Qed.

Lemma downloads_counted_cons tid e log :
  downloads_counted tid (e :: log)
  = ((if counted tid e then 1 else 0) + downloads_counted tid log)%nat.
Proof.
  unfold downloads_counted. rewrite filter_cons.
  destruct (counted tid e); by case_decide.
Qed.

Lemma run_counts w ops tid t :
  transfers w !! tid = Some t ->
  transfers (snd (run w ops)) !! tid
  = Some (set_download_count
            (download_count t + downloads_counted tid (fst (run w ops))) t).
Proof.
  revert w t. induction ops as [|op rest IH]; intros w t H.
  - simpl. by rewrite Nat.add_0_r, set_download_count_same.
  - rewrite run_cons. simpl. rewrite downloads_counted_cons.
    erewrite IH by (by apply exec_counts). simpl.
    by rewrite Nat.add_assoc.
Qed.

Lemma passed_checks_refusals :
  passed_checks not_found = false /\ passed_checks expired = false.
Proof. split; unfold passed_checks; by repeat case_bool_decide. Qed.

(** C5 as the code has it: [get_transfer_info] stores nothing; a download
    answered "Transfer not found" or "Transfer has expired" stores nothing;
    every other download of a stored transfer, whatever it answers afterwards
    (the file, "No files found", or a failure to open the blob), has raised
    [download_count] by exactly one; so after any sequence of requests the
    counter has grown by the number of downloads that got past the existence
    and expiry checks. *)
Theorem download_count_counts_let_through w tid :
  (forall now, snd (get_transfer_info w tid now) = w)
  /\ (forall now,
        fst (download_transfer w tid now) = not_found
        \/ fst (download_transfer w tid now) = expired ->
        snd (download_transfer w tid now) = w)
  /\ (forall now t,
        transfers w !! tid = Some t -> now <= expires_at t ->
        passed_checks (fst (download_transfer w tid now)) = true
        /\ transfers (snd (download_transfer w tid now)) !! tid
           = Some (set_download_count (S (download_count t)) t))
  /\ (forall t ops,
        transfers w !! tid = Some t ->
        transfers (snd (run w ops)) !! tid
        = Some (set_download_count
                  (download_count t + downloads_counted tid (fst (run w ops)))
                  t)).
Proof.
  split; [|split; [|split]].
  - intros now. apply get_transfer_info_pure.
  - intros now Hr.
    destruct (transfers w !! tid) as [t|] eqn:H.
    + destruct (Z_le_gt_dec now (expires_at t)) as [Hn|Hn].
      * destruct (download_transfer_let_through _ _ _ _ H Hn) as (E & _ & Hp).
        rewrite E in Hr. simpl in Hr.
        destruct passed_checks_refusals as [P1 P2].
        destruct Hr as [Hr|Hr]; rewrite Hr in Hp; congruence.
      * by rewrite (download_transfer_refused _ _ _ _ H) by lia.
    + unfold download_transfer, download_load. by rewrite H.
  - intros now t H Hn.
    destruct (download_transfer_let_through _ _ _ _ H Hn) as (-> & Hs & Hp).
    done.
  - intros t ops H. by apply run_counts.
Qed.

(** C8 as the code has it: the module has no sweeper and no route that
    deletes.  After any sequence of requests a stored transfer is still
    stored, with every column but [download_count] unchanged, its file rows are
    still there and its blobs still readable; once its expiry is past it is
    only hidden, both read routes answering "Transfer has expired" without
    touching the store. *)
Theorem expired_transfer_is_kept w ops tid t :
  transfers w !! tid = Some t ->
  persists w (snd (run w ops))
  /\ (exists n, transfers (snd (run w ops)) !! tid
                = Some (set_download_count n t))
  /\ (forall now, expires_at t < now ->
        get_transfer_info (snd (run w ops)) tid now
          = (expired, snd (run w ops))
        /\ download_transfer (snd (run w ops)) tid now
          = (expired, snd (run w ops))).
Proof.
  intros H. pose proof (run_persists w ops) as P. split; [done|].
  destruct P as (A & _). destruct (A _ _ H) as (n & _ & Hn).
  split; [by exists n|]. intros now Hlate. split.
  - unfold get_transfer_info. rewrite Hn. simpl.
    by rewrite gtb_true by lia.
  - by apply (download_transfer_refused _ _ _ _ Hn).
Qed.

(** ** Overlapping downloads *)











(** ** Storage names and paths *)








(** ** The rows of an accepted upload *)

Lemma store_files_inr tid fl : forall fd s fd' s',
  store_files tid fl fd s = (inr fd', s') ->
  tx_new s' = tx_new s ++ pending_for tid (tx_uuid_calls s) fl
  /\ tx_uuid_calls s'
     = (tx_uuid_calls s + length (pending_for tid (tx_uuid_calls s) fl))%nat
  /\ tx_transfers s' = tx_transfers s
  /\ tx_files s' = tx_files s
  /\ fd' = fd ++ map entry_of_pending (pending_for tid (tx_uuid_calls s) fl).
Proof.
  induction fl as [|f rest IH]; intros fd s fd' s'; simpl.
  - intros [= <- <-]. by rewrite !app_nil_r, Nat.add_0_r.
  - case_bool_decide; [apply IH|].
    unfold bind at 1. unfold fresh_uuid at 1. unfold bind at 1.
    unfold save at 1. simpl.
    destruct (save_raises _ _ _); [done|].
    unfold bind at 1. unfold getsize at 1. simpl.
    rewrite lookup_insert_eq.
    unfold bind at 1. unfold session_add at 1.
    intros E. apply IH in E as (E1 & E2 & E3 & E4 & E5). simpl in *.
    rewrite E1, E2, E5, <- !app_assoc.
    split; [done|]. split; [lia|]. done.
Qed.

Lemma flush_files_inr now pending : forall s u s',
  flush_files pending now s = (inr u, s') ->
  tx_files s' = tx_files s ++ rows_for (tx_uuid_calls s) now pending
  /\ tx_transfers s' = tx_transfers s.
Proof.
  induction pending as [|p rest IH]; intros s u s'; simpl.
  - intros [= <- <-]. by rewrite app_nil_r.
  - unfold bind at 1. unfold fresh_uuid at 1. unfold bind at 1. simpl.
    destruct (existsb _ _); [done|].
    intros E. apply IH in E as (E1 & E2). simpl in *.
    by rewrite E1, <- app_assoc.
Qed.

(** What a transaction that ends without an exception has done: the transfer
    took the first uuid, which was free; the answer lists the named parts;
    one row per named part was appended. *)
Lemma create_transfer_success plan total fl now w r s :
  create_transfer plan total fl now (begin w) = (inr r, s) ->
  transfers w !! uuid4 (uuid_calls w) = None
  /\ r = UploadSuccess (uuid4 (uuid_calls w))
           (map entry_of_pending
                (pending_for (uuid4 (uuid_calls w)) (S (uuid_calls w)) fl))
           (now + timedelta_days RETENTION_DAYS)
           ("/download/" +:+ uuid4 (uuid_calls w))
  /\ tx_transfers s
     = <[uuid4 (uuid_calls w) :=
           mkTransfer plan total (length fl) now
                      (now + timedelta_days RETENTION_DAYS) 0 None None]>
         (transfers w)
  /\ tx_files s
     = file_rows w
       ++ rows_for
            (S (uuid_calls w)
             + length (pending_for (uuid4 (uuid_calls w)) (S (uuid_calls w)) fl))
            now (pending_for (uuid4 (uuid_calls w)) (S (uuid_calls w)) fl).
Proof.
  unfold create_transfer. unfold bind at 1.
  unfold add_and_flush_transfer, bind at 1, fresh_uuid, begin. simpl.
  destruct (transfers w !! uuid4 (uuid_calls w)) eqn:F; [done|].
  unfold bind at 1.
  destruct (store_files _ _ _ _) as [[e|fd] s2] eqn:E2; [done|].
  apply store_files_inr in E2 as (N & C & T & Fl & ->). simpl in *.
  unfold bind at 1. unfold session_flush.
  destruct (flush_files _ _ _) as [[e|u] s3] eqn:E3; [done|].
  apply flush_files_inr in E3 as (R & T3). simpl in *.
  intros [= <- <-]. rewrite R, T3, T, Fl, C, N. done.
Qed.

Lemma upload_files_success w req now tid fd exp url w' :
  upload_files w req now = (UploadSuccess tid fd exp url, w') ->
  tid = uuid4 (uuid_calls w)
  /\ transfers w !! tid = None
  /\ transfers w'
     = <[tid := mkTransfer (default "free" (form_plan_type req))
                           (payload (map open_part (parts req)))
                           (length (parts req)) now
                           (now + timedelta_days RETENTION_DAYS) 0 None None]>
         (transfers w)
  /\ file_rows w'
     = file_rows w
       ++ rows_for
            (S (uuid_calls w)
             + length (pending_for tid (S (uuid_calls w))
                                   (map open_part (parts req))))
            now
            (pending_for tid (S (uuid_calls w)) (map open_part (parts req))).
Proof.
  unfold upload_files. destruct (_ >? _); [done|].
  rewrite upload_parsed_unfold, payload_seek0_open.
  destruct (PLAN_LIMITS !! _) as [limit|]; [|done].
  destruct (_ >? limit); [done|].
  destruct (create_transfer _ _ _ _ _) as [[e|r] s] eqn:E; [done|].
  apply create_transfer_success in E as (F & -> & T & R).
  intros [= <- _ _ _ <-]. simpl. rewrite T, R, length_map. done.
Qed.

Lemma rows_for_sizes k now pending :
  sum_file_sizes (rows_for k now pending)
  = foldr (fun p acc => p_file_size p + acc) 0 pending
  /\ length (rows_for k now pending) = length pending
  /\ Forall2 (fun f p => transfer_id f = p_transfer_id p)
             (rows_for k now pending) pending.
Proof.
  revert k. induction pending as [|p rest IH]; intros k; simpl; [done|].
  destruct (IH (S k)) as (A & B & C). rewrite A, B. by repeat constructor.
Qed.

Lemma pending_for_named tid ps : forall k,
  Forall (fun p => part_filename p <> "") ps ->
  foldr (fun p acc => p_file_size p + acc) 0
        (pending_for tid k (map open_part ps))
  = payload (map open_part ps)
  /\ length (pending_for tid k (map open_part ps)) = length ps.
Proof.
  induction ps as [|p ps IH]; intros k H; simpl; [done|].
  apply Forall_cons in H as [Hp H].
  rewrite bool_decide_eq_false_2 by done. simpl.
  destruct (IH (S k) H) as [-> ->]. done.
Qed.

Lemma pending_for_tid tid k fl :
  Forall (fun p => p_transfer_id p = tid) (pending_for tid k fl).
Proof.
  revert k. induction fl as [|f fl IH]; intros k; simpl; [done|].
  case_bool_decide; [apply IH|]. constructor; [done|apply IH].
Qed.

Lemma rows_for_tid tid k now pending :
  Forall (fun p => p_transfer_id p = tid) pending ->
  filter (fun f => transfer_id f = tid) (rows_for k now pending)
  = rows_for k now pending.
Proof.
  revert k. induction pending as [|p rest IH]; intros k H; simpl; [done|].
  apply Forall_cons in H as [Hp H]. rewrite filter_cons. simpl.
  rewrite decide_True by done. by rewrite IH.
Qed.

(** X1: For an accepted upload whose parts all have a filename, into a store
    with no file row under the new identifier: the transfer's [total_size] is
    the sum of its rows' sizes and the bytes received, and its [file_count]
    is the number of its rows. *)
Theorem named_upload_totals w req now tid fd exp url w' :
  upload_files w req now = (UploadSuccess tid fd exp url, w') ->
  Forall (fun p => part_filename p <> "") (parts req) ->
  files_of w tid = [] ->
  exists t,
    transfers w' !! tid = Some t
    /\ total_size t = sum_file_sizes (files_of w' tid)
    /\ total_size t = content_length req - Z.of_nat (framing req)
    /\ file_count t = length (files_of w' tid)
    /\ file_count t = length (parts req).
Proof.
  intros E Hnamed Hnone.
  apply upload_files_success in E as (-> & F & T & R).
  set (pend := pending_for (uuid4 (uuid_calls w)) (S (uuid_calls w))
                           (map open_part (parts req))) in *.
  set (k := (S (uuid_calls w) + length pend)%nat) in *.
  destruct (rows_for_sizes k now pend) as (A & B & _).
  destruct (pending_for_named (uuid4 (uuid_calls w)) (parts req)
              (S (uuid_calls w)) Hnamed) as (C & D).
  fold pend in C, D.
  assert (files_of w' (uuid4 (uuid_calls w)) = rows_for k now pend) as Fs.
  { unfold files_of in *. rewrite R, filter_app, Hnone. simpl.
    apply rows_for_tid, pending_for_tid. }
  eexists. rewrite T, lookup_insert_eq. split; [done|].
  rewrite Fs, A, B, C, D. cbn [total_size file_count].
  unfold content_length. rewrite payload_open.
  repeat split; lia.
Qed.

(** ** The expiry check *)

(** X3: [get_transfer_info] answers with the snapshot up to and including
    [expires_at], in particular one second before it, and with "Transfer has
    expired" from then on, in particular one second after it. *)
Theorem expiry_boundary w tid t now :
  transfers w !! tid = Some t ->
  (now <= expires_at t ->
     get_transfer_info w tid now
     = (TransferSnapshot tid t (map entry_of (files_of w tid)), w))
  /\ (expires_at t < now -> get_transfer_info w tid now = (expired, w))
  /\ status (fst (get_transfer_info w tid (expires_at t - second))) = 200%nat
  /\ status (fst (get_transfer_info w tid (expires_at t + second))) = 410%nat.
Proof.
  intros H. unfold get_transfer_info. rewrite H.
  split; [by intros ->%gtb_false|]. split; [by intros ->%gtb_true|].
  rewrite gtb_false, gtb_true by (unfold second; lia). done.
Qed.

(** * Further properties of the routes *)

(** ** The size loop (lines 73-79) *)

(** X12: The loop adds to the running total the bytes every stream holds from its
    position on, and leaves every stream at position 0 with its name and
    content untouched; the streams of a request just parsed are left exactly
    as they were, so the second loop saves every byte that was counted. *)
Theorem size_loop_rewinds fl acc ps :
  fst (measure_files fl acc) = acc + payload fl
  /\ length (snd (measure_files fl acc)) = length fl
  /\ (forall i f, fl !! i = Some f ->
        snd (measure_files fl acc) !! i
        = Some (mkStorage (fs_filename f) (fs_stream f) 0))
  /\ measure_files (map open_part ps) 0
     = (foldr (fun p n => Z.of_nat (length (part_content p)) + n) 0 ps,
        map open_part ps).
Proof.
  rewrite !measure_files_spec, payload_seek0_open, payload_open. simpl.
  split; [done|]. split; [by rewrite length_map|]. split; [|done].
  intros i f H. by rewrite list_lookup_fmap, H.
Qed.

(** ** A transfer identifier that is already taken *)

(** X8: When the uuid drawn for the new transfer is the key of a stored transfer,
    the INSERT of line 93 fails: the request is answered 500, nothing is
    saved, and the stored transfer is not overwritten. *)
Theorem taken_identifier_is_refused w req now t limit :
  content_length req <= MAX_CONTENT_LENGTH ->
  PLAN_LIMITS !! default "free" (form_plan_type req) = Some limit ->
  transfers w !! uuid4 (uuid_calls w) = Some t ->
  upload_files w req now
  = (CaughtError (IntegrityError "transfer" (uuid4 (uuid_calls w))),
     mkWorld (transfers w) (file_rows w) (blobs w) (S (uuid_calls w))).
Proof.
  intros Hc Hl Ht. unfold upload_files. rewrite gtb_false by done.
  rewrite upload_parsed_unfold, Hl.
  assert (MAX_CONTENT_LENGTH < limit)
    by (unfold MAX_CONTENT_LENGTH; apply PLAN_LIMITS_Some in Hl; lia).
  rewrite gtb_false
    by (rewrite payload_open; unfold content_length in Hc; lia).
  unfold create_transfer, bind, add_and_flush_transfer, bind, fresh_uuid,
    begin. simpl. by rewrite Ht.
Qed.

(** ** What the read routes answer, and what a download touches *)

(** X10: [get_transfer_info] answers 404 exactly for an identifier that is not
    stored, 410 exactly for a stored transfer whose expiry is past, and 200
    otherwise.  [download_transfer] answers "Transfer not found" and
    "Transfer has expired" in the same two cases; past them it answers "No
    files found" exactly when the transfer has no file row, and sends a file
    exactly when the first row's path holds a blob. *)
Theorem read_routes_decision_table w tid now :
  (status (fst (get_transfer_info w tid now)) = 404%nat
     <-> transfers w !! tid = None)
  /\ (status (fst (get_transfer_info w tid now)) = 410%nat
        <-> exists t, transfers w !! tid = Some t /\ expires_at t < now)
  /\ (status (fst (get_transfer_info w tid now)) = 200%nat
        <-> exists t, transfers w !! tid = Some t /\ now <= expires_at t)
  /\ (fst (download_transfer w tid now) = not_found
        <-> transfers w !! tid = None)
  /\ (fst (download_transfer w tid now) = expired
        <-> exists t, transfers w !! tid = Some t /\ expires_at t < now)
  /\ (fst (download_transfer w tid now) = no_files
        <-> exists t, transfers w !! tid = Some t /\ now <= expires_at t
                      /\ files_of w tid = [])
  /\ (status (fst (download_transfer w tid now)) = 200%nat
        <-> exists t f rest body,
              transfers w !! tid = Some t /\ now <= expires_at t
              /\ files_of w tid = f :: rest
              /\ blobs w !! file_path f = Some body
              /\ fst (download_transfer w tid now)
                 = SendFile (file_path f) (original_filename f) body).
Proof.
  unfold get_transfer_info, download_transfer, download_load, download_send.
  destruct (transfers w !! tid) as [t|] eqn:H; simpl.
  - destruct (Z_le_gt_dec now (expires_at t)) as [Hn|Hn].
    + rewrite gtb_false by done. simpl.
      replace (files_of (download_store w tid t) tid) with (files_of w tid)
        by done.
      split; [done|].
      split; [split; [done | intros (t' & [= <-] & ?); lia]|].
      split; [split; [by exists t | done]|].
      split; [split; [|done]|].
      { destruct (files_of w tid); [done|]. by destruct (blobs w !! _). }
      split; [split; [|intros (t' & [= <-] & ?); lia]|].
      { destruct (files_of w tid); [done|]. by destruct (blobs w !! _). }
      split; split.
      * intros E. exists t. repeat split; try done.
        destruct (files_of w tid) as [|f rest]; [done|].
        by destruct (blobs w !! _).
      * intros (t' & _ & _ & ->). done.
      * intros E. destruct (files_of w tid) as [|f rest]; [done|].
        destruct (blobs w !! file_path f) as [body|] eqn:B; [|done].
        by exists t, f, rest, body.
      * intros (t' & f & rest & body & _ & _ & -> & B & _). by rewrite B.
    + rewrite gtb_true by lia. simpl.
      split; [done|].
      split; [split; [intros _; exists t; split; [done|lia] | done]|].
      split; [split; [done | intros (t' & [= <-] & ?); lia]|].
      split; [done|].
      split; [split; [intros _; exists t; split; [done|lia] | done]|].
      split; [split; [done | intros (t' & [= <-] & ? & _); lia]|].
      split; [done|]. intros (t' & ? & ? & ? & [= <-] & ? & _). lia.
  - split; [done|].
    split; [split; [done | by intros (t' & ? & _)]|].
    split; [split; [done | by intros (t' & ? & _)]|].
    split; [done|].
    split; [split; [done | by intros (t' & ? & _)]|].
    split; [split; [done | by intros (t' & ? & _)]|].
    split; [done|]. by intros (t' & ? & ? & ? & ? & _).
Qed.

(** X9: A download, whatever it answers, leaves the file rows, the blobs and
    every other transfer as they were; of the transfer it names it changes
    [download_count] alone, by at most one. *)
Theorem download_touches_one_counter w tid now :
  file_rows (snd (download_transfer w tid now)) = file_rows w
  /\ blobs (snd (download_transfer w tid now)) = blobs w
  /\ uuid_calls (snd (download_transfer w tid now)) = uuid_calls w
  /\ (forall tid', tid' <> tid ->
        transfers (snd (download_transfer w tid now)) !! tid'
        = transfers w !! tid')
  /\ (forall t, transfers w !! tid = Some t ->
        transfers (snd (download_transfer w tid now)) !! tid = Some t
        \/ transfers (snd (download_transfer w tid now)) !! tid
           = Some (set_download_count (S (download_count t)) t))
  /\ (transfers w !! tid = None ->
        transfers (snd (download_transfer w tid now)) !! tid = None).
Proof.
  unfold download_transfer, download_load.
  destruct (transfers w !! tid) as [t|] eqn:H; [|done].
  destruct (now >? expires_at t); simpl.
  - do 4 (split; [done|]). split; [|done]. intros t' E. left. by rewrite H.
  - do 3 (split; [done|]). split; [|split; [|done]].
    + intros tid' Hne. by rewrite lookup_alter_ne.
    + intros t' [= <-]. right. by rewrite lookup_alter_eq, H.
Qed.

Lemma download_touches_one_counter_rows w tid now :
  file_rows (snd (download_transfer w tid now)) = file_rows w
  /\ blobs (snd (download_transfer w tid now)) = blobs w.
Proof.
  unfold download_transfer. by destruct (download_load w tid now).
Qed.

(** ** What other requests leave of a stored transfer *)

Lemma upload_files_outcome w req now :
  (exists tid fd exp url,
     fst (upload_files w req now) = UploadSuccess tid fd exp url)
  \/ (transfers (snd (upload_files w req now)) = transfers w
      /\ file_rows (snd (upload_files w req now)) = file_rows w).
Proof.
  unfold upload_files. destruct (_ >? _); [by right|].
  rewrite upload_parsed_unfold.
  destruct (PLAN_LIMITS !! _) as [limit|]; [|by right].
  destruct (_ >? limit); [by right|].
  destruct (create_transfer _ _ _ _ _) as [[e|r] s] eqn:E; [by right|].
  apply create_transfer_inr in E as (tid & fd & ->). left. by eexists _, _, _, _.
Qed.

Lemma rows_for_other_tid tid tid' k now pending :
  tid' <> tid ->
  Forall (fun p => p_transfer_id p = tid') pending ->
  filter (fun f => transfer_id f = tid) (rows_for k now pending) = [].
Proof.
  intros Hne. revert k.
  induction pending as [|p rest IH]; intros k H; simpl; [done|].
  apply Forall_cons in H as [Hp H]. rewrite filter_cons. simpl.
  rewrite decide_False by congruence. by apply IH.
Qed.

(** An upload adds no file row to a transfer that is already stored. *)
Lemma upload_files_files_of w req now tid t :
  transfers w !! tid = Some t ->
  files_of (snd (upload_files w req now)) tid = files_of w tid.
Proof.
  intros H. destruct (upload_files_outcome w req now)
    as [(tid' & fd & exp & url & E)|[_ E]].
  - destruct (upload_files w req now) as [r w'] eqn:U. simpl in *. subst r.
    apply upload_files_success in U as (-> & F & _ & R).
    unfold files_of. rewrite R, filter_app.
    rewrite (rows_for_other_tid tid (uuid4 (uuid_calls w)));
      [by rewrite app_nil_r | congruence | apply pending_for_tid].
  - unfold files_of. by rewrite E.
Qed.

Lemma exec_files_of w op tid t :
  transfers w !! tid = Some t ->
  files_of (snd (exec w op)) tid = files_of w tid.
Proof.
  intros H. destruct op as [req now|tid' now|tid' now]; simpl.
  - by eapply upload_files_files_of.
  - by rewrite get_transfer_info_pure.
  - unfold files_of.
    by destruct (download_touches_one_counter_rows w tid' now) as [-> _].
Qed.

Lemma run_files_of w ops tid t :
  transfers w !! tid = Some t ->
  files_of (snd (run w ops)) tid = files_of w tid.
Proof.
  revert w t. induction ops as [|op rest IH]; intros w t H; [done|].
  rewrite run_cons. simpl.
  erewrite IH by (by apply exec_counts). by eapply exec_files_of.
Qed.

(** X7: Whatever requests come in between, [get_transfer_info] shows a stored,
    unexpired transfer with the columns and the files it had; only
    [download_count] differs, by the downloads of it that were let through. *)
Theorem stored_transfer_reads_the_same w ops tid t now :
  transfers w !! tid = Some t ->
  now <= expires_at t ->
  get_transfer_info (snd (run w ops)) tid now
  = (TransferSnapshot tid
       (set_download_count
          (download_count t + downloads_counted tid (fst (run w ops))) t)
       (map entry_of (files_of w tid)),
     snd (run w ops)).
Proof.
  intros H Hn. unfold get_transfer_info.
  rewrite (run_counts w ops tid t H). simpl.
  rewrite gtb_false by done. by erewrite run_files_of.
Qed.

(** ** The blobs of an upload *)

Lemma store_files_inr_blobs tid fl : forall fd s fd' s',
  store_files tid fl fd s = (inr fd', s') ->
  tx_blobs s' = apply_writes (tx_blobs s) (writes_for (tx_uuid_calls s) fl).
Proof.
  induction fl as [|f rest IH]; intros fd s fd' s'; simpl.
  - by intros [= <- <-].
  - case_bool_decide; [apply IH|].
    unfold bind at 1. unfold fresh_uuid at 1. unfold bind at 1.
    unfold save at 1. simpl.
    destruct (save_raises _ _ _); [done|].
    unfold bind at 1. unfold getsize at 1. simpl.
    rewrite lookup_insert_eq.
    unfold bind at 1. unfold session_add at 1.
    intros E. apply IH in E. by rewrite E.
Qed.

Lemma flush_files_blobs now pending : forall s r s',
  flush_files pending now s = (r, s') -> tx_blobs s' = tx_blobs s.
Proof.
  induction pending as [|p rest IH]; intros s r s'; simpl.
  - by intros [= <- <-].
  - unfold bind at 1. unfold fresh_uuid at 1. unfold bind at 1. simpl.
    destruct (existsb _ _); [by intros [= <- <-]|].
    intros E. by apply IH in E.
Qed.

Lemma upload_files_success_blobs w req now tid fd exp url w' :
  upload_files w req now = (UploadSuccess tid fd exp url, w') ->
  blobs w'
  = apply_writes (blobs w)
      (writes_for (S (uuid_calls w)) (map open_part (parts req))).
Proof.
  unfold upload_files. destruct (_ >? _); [done|].
  rewrite upload_parsed_unfold, payload_seek0_open.
  destruct (PLAN_LIMITS !! _) as [limit|]; [|done].
  destruct (_ >? limit); [done|].
  unfold create_transfer. unfold bind at 1.
  unfold add_and_flush_transfer, bind at 1, fresh_uuid, begin. simpl.
  destruct (transfers w !! uuid4 (uuid_calls w)); [done|].
  unfold bind at 1.
  destruct (store_files _ _ _ _) as [[e|fd'] s2] eqn:E2; [done|].
  apply store_files_inr_blobs in E2. simpl in E2.
  unfold bind at 1. unfold session_flush.
  destruct (flush_files _ _ _) as [[e|u] s3] eqn:E3; [done|].
  apply flush_files_blobs in E3. simpl in E3.
  intros [= _ _ _ _ <-]. simpl. by rewrite E3, E2.
Qed.

Lemma apply_writes_not_written store writes path :
  path ∉ map fst writes -> apply_writes store writes !! path = store !! path.
Proof.
  unfold apply_writes. revert store.
  induction writes as [|[k v] rest IH]; intros store H; simpl; [done|].
  simpl in H. apply not_elem_of_cons in H as [Hne H].
  rewrite IH by done. by rewrite lookup_insert_ne.
Qed.

Lemma apply_writes_written store writes n path data :
  NoDup (map fst writes) ->
  writes !! n = Some (path, data) ->
  apply_writes store writes !! path = Some data.
Proof.
  unfold apply_writes. revert store n.
  induction writes as [|[k v] rest IH]; intros store n Hnd H; [done|].
  simpl in Hnd. apply NoDup_cons in Hnd as [Hk Hnd].
  destruct n as [|n]; simpl in *.
  - injection H as -> ->.
    fold (apply_writes (<[path:=data]> store) rest).
    rewrite apply_writes_not_written by done. apply lookup_insert_eq.
  - by eapply IH.
Qed.

Lemma apply_writes_keeps store writes path :
  is_Some (store !! path) -> is_Some (apply_writes store writes !! path).
Proof.
  unfold apply_writes. revert store.
  induction writes as [|[k v] rest IH]; intros store H; simpl; [done|].
  apply IH. rewrite lookup_insert_is_Some. destruct (decide (k = path)); auto.
Qed.

Lemma apply_writes_has store writes path :
  path ∈ map fst writes -> is_Some (apply_writes store writes !! path).
Proof.
  revert store.
  induction writes as [|[k v] rest IH]; intros store H; simpl in *.
  - by apply elem_of_nil in H.
  - apply elem_of_cons in H as [->|H].
    + apply apply_writes_keeps. rewrite lookup_insert_eq. by eexists.
    + by apply IH.
Qed.

Lemma writes_for_paths tid fl : forall k,
  map fst (writes_for k fl) = map p_file_path (pending_for tid k fl).
Proof.
  induction fl as [|f fl IH]; intros k; simpl; [done|].
  case_bool_decide; [apply IH|]. simpl. by rewrite IH.
Qed.

Lemma rows_for_paths k now pending :
  map file_path (rows_for k now pending) = map p_file_path pending.
Proof.
  revert k. induction pending as [|p rest IH]; intros k; simpl; [done|].
  by rewrite IH.
Qed.

(** The [n]-th named part is the [n]-th write and the [n]-th pending object. *)
Lemma named_lookup tid ps : forall k n p,
  named ps !! n = Some p ->
  writes_for k (map open_part ps) !! n
  = Some (blob_path (uuid4 (k + n)) (part_filename p), part_content p)
  /\ pending_for tid k (map open_part ps) !! n
     = Some (mkPending tid
               (storage_filename (uuid4 (k + n)) (part_filename p))
               (part_filename p) (Z.of_nat (length (part_content p)))
               (blob_path (uuid4 (k + n)) (part_filename p))).
Proof.
  unfold named.
  induction ps as [|q ps IH]; intros k n p; simpl; [done|].
  rewrite filter_cons. case_bool_decide as Hq.
  - rewrite decide_False by (by intros ?). apply IH.
  - rewrite decide_True by done. destruct n as [|n]; simpl.
    + intros [= <-]. by rewrite Nat.add_0_r.
    + intros H. apply (IH (S k)) in H. by rewrite Nat.add_succ_r.
Qed.

Lemma rows_for_lookup_Some now pending : forall k n p,
  pending !! n = Some p ->
  rows_for k now pending !! n
  = Some (mkFile (uuid4 (k + n)) (p_transfer_id p) (p_filename p)
                 (p_original_filename p) (p_file_size p) (p_file_path p) now).
Proof.
  induction pending as [|q rest IH]; intros k n p; [done|].
  destruct n as [|n]; simpl.
  - intros [= <-]. by rewrite Nat.add_0_r.
  - intros H. rewrite (IH (S k) n p H). by rewrite Nat.add_succ_r.
Qed.

Lemma pending_for_length tid ps : forall k,
  length (pending_for tid k (map open_part ps)) = length (named ps).
Proof.
  unfold named. induction ps as [|q ps IH]; intros k; simpl; [done|].
  rewrite filter_cons. case_bool_decide.
  - rewrite decide_False by (by intros ?). apply IH.
  - rewrite decide_True by done. simpl. by rewrite IH.
Qed.

(** The row and the blob an accepted upload leaves for its [n]-th named
    part, when no two of its blobs were saved under one path. *)
Lemma uploaded_row_and_blob w req now tid fd exp url w' n p :
  upload_files w req now = (UploadSuccess tid fd exp url, w') ->
  NoDup (map file_path (drop (length (file_rows w)) (file_rows w'))) ->
  named (parts req) !! n = Some p ->
  file_rows w' !! (length (file_rows w) + n)%nat
  = Some (mkFile
            (uuid4 (S (uuid_calls w) + length (named (parts req)) + n))
            tid
            (storage_filename (uuid4 (S (uuid_calls w) + n)) (part_filename p))
            (part_filename p) (Z.of_nat (length (part_content p)))
            (blob_path (uuid4 (S (uuid_calls w) + n)) (part_filename p)) now)
  /\ blobs w' !! blob_path (uuid4 (S (uuid_calls w) + n)) (part_filename p)
     = Some (part_content p).
Proof.
  intros E Hnd Hp.
  pose proof (upload_files_success_blobs _ _ _ _ _ _ _ _ E) as B.
  apply upload_files_success in E as (-> & F & T & R).
  destruct (named_lookup (uuid4 (uuid_calls w)) (parts req)
              (S (uuid_calls w)) n p Hp) as [Hw Hpend].
  rewrite R in Hnd. rewrite drop_app_length, rows_for_paths in Hnd.
  rewrite <- (writes_for_paths (uuid4 (uuid_calls w))) in Hnd.
  split.
  - rewrite R, lookup_app_r by lia.
    replace (length (file_rows w) + n - length (file_rows w))%nat with n
      by lia.
    rewrite (rows_for_lookup_Some _ _ _ _ _ Hpend), pending_for_length.
    simpl. done.
  - rewrite B. by eapply apply_writes_written.
Qed.

(** X5: For an accepted upload that saved no two blobs under one path: every
    part with a filename has its row, with the display name as sent and the
    size of the content, and the blob at the row's path is the content, byte
    for byte. *)
Theorem stored_blobs_are_the_uploaded_bytes w req now tid fd exp url w' :
  upload_files w req now = (UploadSuccess tid fd exp url, w') ->
  NoDup (map file_path (drop (length (file_rows w)) (file_rows w'))) ->
  length (file_rows w') = (length (file_rows w) + length (named (parts req)))%nat
  /\ forall n p,
       named (parts req) !! n = Some p ->
       exists f,
         file_rows w' !! (length (file_rows w) + n)%nat = Some f
         /\ transfer_id f = tid
         /\ original_filename f = part_filename p
         /\ file_size f = Z.of_nat (length (part_content p))
         /\ blobs w' !! file_path f = Some (part_content p).
Proof.
  intros E Hnd. split.
  - pose proof E as E'. apply upload_files_success in E' as (-> & _ & _ & R).
    rewrite R, length_app.
    destruct (rows_for_sizes
                (S (uuid_calls w)
                 + length (pending_for (uuid4 (uuid_calls w))
                             (S (uuid_calls w)) (map open_part (parts req))))
                now
                (pending_for (uuid4 (uuid_calls w)) (S (uuid_calls w))
                             (map open_part (parts req)))) as (_ & L & _).
    by rewrite L, pending_for_length.
  - intros n p Hp.
    destruct (uploaded_row_and_blob _ _ _ _ _ _ _ _ _ _ E Hnd Hp) as [Hr Hb].
    eexists. split; [exact Hr|]. simpl. done.
Qed.

(** X6: After an accepted upload into a store with no file row under the new
    identifier, and with no two blobs saved under one path, a download within
    the retention window sends the first part that has a filename, under its
    display name and with its content byte for byte, or answers "No files
    found" when no part had a filename; either way the counter goes from 0
    to 1. *)
Theorem upload_then_download w req now tid fd exp url w' now' :
  upload_files w req now = (UploadSuccess tid fd exp url, w') ->
  files_of w tid = [] ->
  NoDup (map file_path (drop (length (file_rows w)) (file_rows w'))) ->
  now' <= now + timedelta_days RETENTION_DAYS ->
  fst (download_transfer w' tid now')
  = match named (parts req) with
    | p :: _ =>
        SendFile (blob_path (uuid4 (S (uuid_calls w))) (part_filename p))
                 (part_filename p) (part_content p)
    | [] => no_files
    end
  /\ download_count <$> transfers w' !! tid = Some 0%nat
  /\ download_count <$>
       transfers (snd (download_transfer w' tid now')) !! tid = Some 1%nat.
Proof.
  intros E Hnone Hnd Hn.
  pose proof E as E'. apply upload_files_success in E' as (Etid & F & T & R).
  assert (transfers w' !! tid
          = Some (mkTransfer (default "free" (form_plan_type req))
                    (payload (map open_part (parts req)))
                    (length (parts req)) now
                    (now + timedelta_days RETENTION_DAYS) 0 None None)) as Hrow
    by (by rewrite T, lookup_insert_eq).
  destruct (download_transfer_let_through w' tid now' _ Hrow Hn)
    as (-> & Hs & _).
  cbn [fst snd]. rewrite Hs, Hrow. split; [|done].
  unfold download_send.
  replace (files_of (download_store w' tid _) tid) with (files_of w' tid)
    by done.
  replace (blobs (download_store w' tid _)) with (blobs w') by done.
  assert (files_of w' tid
          = rows_for
              (S (uuid_calls w)
               + length (pending_for tid (S (uuid_calls w))
                           (map open_part (parts req))))
              now
              (pending_for tid (S (uuid_calls w))
                 (map open_part (parts req)))) as Fs.
  { unfold files_of in *. rewrite R, filter_app, Hnone. simpl.
    apply rows_for_tid, pending_for_tid. }
  destruct (named (parts req)) as [|p others] eqn:Hnamed.
  - pose proof (pending_for_length tid (parts req) (S (uuid_calls w))) as L.
    rewrite Hnamed in L. apply nil_length_inv in L.
    by rewrite Fs, L.
  - assert (named (parts req) !! 0%nat = Some p) as H0 by (by rewrite Hnamed).
    destruct (uploaded_row_and_blob _ _ _ _ _ _ _ _ _ _ E Hnd H0) as [_ Hb].
    destruct (named_lookup tid (parts req) (S (uuid_calls w)) 0 p H0)
      as [_ Hpend].
    rewrite Nat.add_0_r in Hb, Hpend. rewrite Fs.
    destruct (pending_for tid (S (uuid_calls w)) (map open_part (parts req)))
      as [|q rest]; [done|].
    injection Hpend as ->. simpl. subst tid. by rewrite Hb.
Qed.

(** ** An upload, then a look at it *)

Lemma upload_files_success_response w req now tid fd exp url w' :
  upload_files w req now = (UploadSuccess tid fd exp url, w') ->
  fd = map entry_of_pending
         (pending_for tid (S (uuid_calls w)) (map open_part (parts req)))
  /\ exp = now + timedelta_days RETENTION_DAYS
  /\ url = "/download/" +:+ tid.
Proof.
  unfold upload_files. destruct (_ >? _); [done|].
  rewrite upload_parsed_unfold, payload_seek0_open.
  destruct (PLAN_LIMITS !! _) as [limit|]; [|done].
  destruct (_ >? limit); [done|].
  destruct (create_transfer _ _ _ _ _) as [[e|r] s] eqn:E; [done|].
  apply create_transfer_success in E as (_ & -> & _).
  by intros [= <- <- <- <- _].
Qed.

Lemma entries_agree k now pending :
  map (fun e => (entry_name e, entry_size e))
      (map entry_of (rows_for k now pending))
  = map (fun e => (entry_name e, entry_size e))
        (map entry_of_pending pending)
  /\ Forall (fun e => is_Some (entry_id e))
            (map entry_of (rows_for k now pending))
  /\ Forall (fun e => entry_id e = None) (map entry_of_pending pending).
Proof.
  revert k. induction pending as [|p rest IH]; intros k; simpl; [done|].
  destruct (IH (S k)) as (A & B & C). rewrite A.
  split; [done|]. split; constructor; by eauto.
Qed.

(** X4: An accepted upload answers with the first uuid drawn, an expiry ten days
    ahead and the download address of that identifier, and adds exactly that
    transfer to the store.  Up to the expiry [get_transfer_info] shows it
    with the plan, the bytes and the part count of the request, no download
    yet, and the same names and sizes as the upload's answer, now each with
    the identifier its row was given (the upload's answer had none);
    afterwards it answers "Transfer has expired". *)
Theorem upload_then_info w req now tid fd exp url w' :
  upload_files w req now = (UploadSuccess tid fd exp url, w') ->
  files_of w tid = [] ->
  tid = uuid4 (uuid_calls w)
  /\ exp = now + timedelta_days RETENTION_DAYS
  /\ url = "/download/" +:+ tid
  /\ transfers w !! tid = None
  /\ dom (transfers w') = {[tid]} ∪ dom (transfers w)
  /\ Forall (fun e => entry_id e = None) fd
  /\ (forall now', now' <= exp ->
        exists t entries,
          get_transfer_info w' tid now' = (TransferSnapshot tid t entries, w')
          /\ plan_type t = default "free" (form_plan_type req)
          /\ total_size t = content_length req - Z.of_nat (framing req)
          /\ file_count t = length (parts req)
          /\ expires_at t = exp
          /\ download_count t = 0%nat
          /\ map (fun e => (entry_name e, entry_size e)) entries
             = map (fun e => (entry_name e, entry_size e)) fd
          /\ Forall (fun e => is_Some (entry_id e)) entries)
  /\ (forall now', exp < now' -> get_transfer_info w' tid now' = (expired, w')).
Proof.
  intros E Hnone.
  destruct (upload_files_success_response _ _ _ _ _ _ _ _ E) as (-> & -> & ->).
  apply upload_files_success in E as (Etid & F & T & R).
  set (pend := pending_for tid (S (uuid_calls w))
                           (map open_part (parts req))) in *.
  set (k := (S (uuid_calls w) + length pend)%nat) in *.
  destruct (entries_agree k now pend) as (A & B & C).
  assert (files_of w' tid = rows_for k now pend) as Fs.
  { unfold files_of in *. rewrite R, filter_app, Hnone. simpl.
    apply rows_for_tid, pending_for_tid. }
  do 4 (split; [done|]).
  split; [by rewrite T, dom_insert_L|]. split; [done|]. split.
  - intros now' Hn. unfold get_transfer_info.
    rewrite T, lookup_insert_eq. simpl. rewrite gtb_false by done.
    eexists _, _. split; [done|]. simpl. rewrite Fs.
    unfold content_length. rewrite payload_open.
    repeat split; try done. lia.
  - intros now' Hn. unfold get_transfer_info.
    rewrite T, lookup_insert_eq. simpl. by rewrite gtb_true by done.
Qed.

(** ** Stores that requests have built *)

Lemma store_ok_empty : store_ok (mkWorld ∅ [] ∅ 0).
Proof.
  split.
  - intros f H. by apply elem_of_nil in H.
  - intros tid t H. simpl in H. by rewrite lookup_empty in H.
Qed.

Lemma pending_for_bounds tid ps : forall k,
  (length (pending_for tid k (map open_part ps)) <= length ps)%nat
  /\ 0 <= foldr (fun p acc => p_file_size p + acc) 0
                (pending_for tid k (map open_part ps))
       <= payload (map open_part ps)
  /\ Forall (fun p => 0 <= p_file_size p)
            (pending_for tid k (map open_part ps)).
Proof.
  induction ps as [|q ps IH]; intros k; simpl; [by repeat split|].
  case_bool_decide.
  - destruct (IH k) as (A & B & C).
    split; [lia|]. split; [lia|done].
  - destruct (IH (S k)) as (A & B & C). simpl.
    split; [lia|]. split; [lia|]. constructor; [simpl; lia|done].
Qed.

Lemma rows_for_elem k now pending f :
  f ∈ rows_for k now pending ->
  exists p, p ∈ pending
            /\ transfer_id f = p_transfer_id p
            /\ file_path f = p_file_path p
            /\ file_size f = p_file_size p.
Proof.
  revert k. induction pending as [|p rest IH]; intros k H; simpl in *.
  - by apply elem_of_nil in H.
  - apply elem_of_cons in H as [->|H].
    + exists p. split; [left|done].
    + apply IH in H as (q & Hq & ?). exists q. split; [by right|done].
Qed.

Lemma store_ok_no_rows w tid :
  store_ok w -> transfers w !! tid = None -> files_of w tid = [].
Proof.
  intros [Hrows _] Hnone. unfold files_of.
  induction (file_rows w) as [|f rest IH]; [done|].
  rewrite filter_cons. case_decide as Hf.
  - destruct (Hrows f) as ([t Ht] & _); [left|]. congruence.
  - apply IH. intros g Hg. apply Hrows. by right.
Qed.

Lemma upload_files_store_ok w req now :
  store_ok w -> store_ok (snd (upload_files w req now)).
Proof.
  intros Hok. pose proof Hok as [Hrows Htr].
  destruct (upload_files_outcome w req now)
    as [(tid & fd & exp & url & E)|[Et Er]].
  - destruct (upload_files w req now) as [r w'] eqn:U. simpl in *. subst r.
    pose proof (upload_files_success_blobs _ _ _ _ _ _ _ _ U) as B.
    apply upload_files_success in U as (-> & F & T & R).
    set (tid := uuid4 (uuid_calls w)) in *.
    set (pend := pending_for tid (S (uuid_calls w))
                             (map open_part (parts req))) in *.
    set (k := (S (uuid_calls w) + length pend)%nat) in *.
    destruct (pending_for_bounds tid (parts req) (S (uuid_calls w)))
      as (Lb & Sb & Nb). fold pend in Lb, Sb, Nb.
    split.
    + intros f Hf. rewrite R in Hf. apply elem_of_app in Hf as [Hf|Hf].
      * destruct (Hrows f Hf) as (A1 & A2 & A3). split; [|split; [|done]].
        -- rewrite T, lookup_insert_is_Some.
           destruct (decide (tid = transfer_id f)); auto.
        -- rewrite B. by apply apply_writes_keeps.
      * apply rows_for_elem in Hf as (p & Hp & E1 & E2 & E3).
        split; [|split].
        -- rewrite E1, T.
           rewrite (proj1 (Forall_forall _ _) (pending_for_tid tid _ _) p Hp).
           rewrite lookup_insert_eq. by eexists.
        -- rewrite B, E2. apply apply_writes_has.
           rewrite (writes_for_paths tid). fold pend.
           by apply list_elem_of_fmap_2.
        -- rewrite E3. by apply (proj1 (Forall_forall _ _) Nb).
    + intros tid' t' Ht. unfold files_of. rewrite R, filter_app.
      rewrite T in Ht. apply lookup_insert_Some in Ht as [[<- <-]|[Hne Ht]].
      * fold (files_of w tid). rewrite (store_ok_no_rows w tid Hok F). simpl.
        rewrite rows_for_tid by apply pending_for_tid.
        destruct (rows_for_sizes k now pend) as (A1 & A2 & _).
        rewrite A1, A2, payload_open. rewrite payload_open in Sb. lia.
      * rewrite (rows_for_other_tid tid' tid);
          [|done|apply pending_for_tid].
        rewrite app_nil_r. by apply Htr.
  - destruct (upload_files_persists w req now) as (_ & _ & Pb).
    split.
    + intros f Hf. rewrite Er in Hf. destruct (Hrows f Hf) as (A1 & A2 & A3).
      rewrite Et. auto.
    + intros tid' t' Ht. rewrite Et in Ht. unfold files_of. rewrite Er.
      by apply Htr.
Qed.

Lemma exec_store_ok w op : store_ok w -> store_ok (snd (exec w op)).
Proof.
  intros Hok. destruct op as [req now|tid now|tid now]; simpl.
  - by apply upload_files_store_ok.
  - by rewrite get_transfer_info_pure.
  - destruct Hok as [Hrows Htr].
    destruct (download_touches_one_counter_rows w tid now) as [Er Eb].
    unfold download_transfer, download_load in *.
    destruct (transfers w !! tid) as [t|] eqn:H; [|done].
    destruct (now >? expires_at t); [done|]. simpl in *. split.
    + intros f Hf. destruct (Hrows f Hf) as (A1 & A2 & A3).
      split; [|done]. unfold download_store. simpl.
      by apply lookup_alter_is_Some.
    + intros tid' t' Ht. replace (files_of _ tid') with (files_of w tid')
        by done.
      unfold download_store in Ht. simpl in Ht.
      destruct (decide (tid = tid')) as [<-|Hne].
      * rewrite lookup_alter_eq, H in Ht. injection Ht as <-. simpl.
        by apply Htr.
      * rewrite lookup_alter_ne in Ht by done. by apply Htr.
Qed.

Lemma run_store_ok w ops : store_ok w -> store_ok (snd (run w ops)).
Proof.
  revert w. induction ops as [|op rest IH]; intros w H; [done|].
  rewrite run_cons. simpl. by apply IH, exec_store_ok.
Qed.

(** X13: Every store that requests build from the empty one is consistent: each
    file row points at a stored transfer and at a path that holds a blob, and
    no transfer has more rows than its [file_count] or more bytes in them than
    its [total_size].  So a download that is let through either sends a file
    or answers "No files found": it never fails on a missing blob. *)
Theorem built_store_is_consistent ops tid now :
  store_ok (snd (run (mkWorld ∅ [] ∅ 0) ops))
  /\ forall e,
       fst (download_transfer (snd (run (mkWorld ∅ [] ∅ 0) ops)) tid now)
       <> Unhandled e.
Proof.
  pose proof (run_store_ok _ ops store_ok_empty) as Hok.
  split; [done|]. intros e.
  set (w := snd (run (mkWorld ∅ [] ∅ 0) ops)) in *.
  unfold download_transfer, download_load.
  destruct (transfers w !! tid) as [t|] eqn:H; [|done].
  destruct (now >? expires_at t); [done|]. simpl.
  unfold download_send.
  replace (files_of (download_store w tid t) tid) with (files_of w tid)
    by done.
  destruct (files_of w tid) as [|f rest] eqn:Hf; [done|]. simpl.
  destruct Hok as [Hrows _].
  assert (f ∈ file_rows w) as Hin.
  { assert (f ∈ files_of w tid) as Hin by (rewrite Hf; left).
    unfold files_of in Hin. by apply list_elem_of_filter in Hin as [_ ?]. }
  destruct (Hrows f Hin) as (_ & [body ->] & _). done.
Qed.

(** ** The paths an upload writes *)

Lemma store_files_writes tid fl : forall fd s r s',
  store_files tid fl fd s = (r, s') ->
  (tx_uuid_calls s <= tx_uuid_calls s')%nat
  /\ forall path,
       tx_blobs s' !! path <> tx_blobs s !! path ->
       exists k f,
         (tx_uuid_calls s <= k < tx_uuid_calls s')%nat
         /\ f ∈ fl /\ fs_filename f <> ""
         /\ path = blob_path (uuid4 k) (fs_filename f).
Proof.
  induction fl as [|f rest IH]; intros fd s r s'; simpl.
  - intros [= <- <-]. split; [done|]. by intros path H.
  - case_bool_decide as Hname.
    + intros E. apply IH in E as [Hc Hw]. split; [done|].
      intros path Hp. destruct (Hw path Hp) as (k & g & ? & ? & ? & ?).
      exists k, g. split; [lia|]. split; [by right|done].
    + unfold bind at 1. unfold fresh_uuid at 1. unfold bind at 1.
      unfold save at 1. simpl.
      destruct (save_raises _ _ _).
      { intros [= <- <-]. simpl. split; [lia|]. by intros path H. }
      unfold bind at 1. unfold getsize at 1. simpl.
      rewrite lookup_insert_eq.
      unfold bind at 1. unfold session_add at 1.
      intros E. apply IH in E as [Hc Hw]. simpl in *. split; [lia|].
      intros path Hp.
      destruct (decide
                  (path = path_join UPLOAD_DIR
                            (storage_filename (uuid4 (tx_uuid_calls s))
                                              (fs_filename f)))) as [->|Hne].
      * exists (tx_uuid_calls s), f. split; [lia|]. split; [left|done].
      * destruct (Hw path) as (k & g & ? & ? & ? & ?).
        { by rewrite lookup_insert_ne. }
        exists k, g. split; [lia|]. split; [by right|done].
Qed.

(** X11: Whatever an upload answers, the only paths whose content it changes are
    the ones it built itself: the upload directory joined with a uuid it
    drew, an underscore and the filename of one of its parts.  Every other
    blob, of this or any other transfer, is as it was. *)
Theorem upload_writes_only_its_own_paths w req now path :
  blobs (snd (upload_files w req now)) !! path <> blobs w !! path ->
  exists k p,
    (S (uuid_calls w) <= k < uuid_calls (snd (upload_files w req now)))%nat
    /\ p ∈ parts req /\ part_filename p <> ""
    /\ path = blob_path (uuid4 k) (part_filename p).
Proof.
  destruct (upload_files w req now) as [r w'] eqn:E. simpl. revert E.
  unfold upload_files. destruct (_ >? _); [by intros [= <- <-]|].
  rewrite upload_parsed_unfold, payload_seek0_open.
  destruct (PLAN_LIMITS !! _) as [limit|]; [|by intros [= <- <-]].
  destruct (_ >? limit); [by intros [= <- <-]|].
  unfold create_transfer. unfold bind at 1.
  unfold add_and_flush_transfer, bind at 1, fresh_uuid, begin. simpl.
  destruct (transfers w !! uuid4 (uuid_calls w)); [by intros [= <- <-]|].
  unfold bind at 1.
  destruct (store_files _ _ _ _) as [r2 s2] eqn:E2.
  apply store_files_writes in E2 as [Hc Hw]. simpl in Hc, Hw.
  assert (forall s3 : Tx,
            tx_blobs s3 = tx_blobs s2 ->
            (tx_uuid_calls s2 <= tx_uuid_calls s3)%nat ->
            tx_blobs s3 !! path <> blobs w !! path ->
            exists k p,
              (S (uuid_calls w) <= k < tx_uuid_calls s3)%nat
              /\ p ∈ parts req /\ part_filename p <> ""
              /\ path = blob_path (uuid4 k) (part_filename p)) as Done.
  { intros s3 Eb Ec Hp. rewrite Eb in Hp.
    destruct (Hw path Hp) as (k & f & Hk & Hf & Hn & ->).
    apply list_elem_of_fmap in Hf as (p & -> & Hp').
    exists k, p. split; [lia|done]. }
  destruct r2 as [e|fd]; [intros [= <- <-]; by apply Done|].
  unfold bind at 1.
  destruct (session_flush now s2) as [r3 s3] eqn:E3.
  pose proof (preserving_session_flush now _ _ _ E3) as (_ & _ & _ & Hc3).
  unfold session_flush in E3. apply flush_files_blobs in E3. simpl in E3.
  destruct r3 as [e|u]; intros [= <- <-]; by apply Done.
Qed.

(** ** When an upload is accepted *)

Lemma store_files_succeeds tid ps : forall k fd s,
  tx_uuid_calls s = k ->
  (forall store n p,
     named ps !! n = Some p ->
     save_raises store (blob_path (uuid4 (k + n)) (part_filename p))
                 (part_content p) = false) ->
  exists fd' s', store_files tid (map open_part ps) fd s = (inr fd', s').
Proof.
  unfold named.
  induction ps as [|q ps IH]; intros k fd s Hk Hsave; simpl.
  - by eexists _, _.
  - rewrite filter_cons in Hsave. case_bool_decide as Hq.
    + rewrite decide_False in Hsave by (by intros ?). by eapply IH.
    + rewrite decide_True in Hsave by done.
      unfold bind at 1. unfold fresh_uuid at 1. unfold bind at 1.
      unfold save at 1. simpl.
      pose proof (Hsave (tx_blobs s) 0%nat q eq_refl) as H0.
      rewrite Nat.add_0_r, <- Hk in H0. unfold blob_path in H0.
      change (drop 0 (part_content q)) with (part_content q). rewrite H0.
      unfold bind at 1. unfold getsize at 1. simpl.
      rewrite lookup_insert_eq.
      unfold bind at 1. unfold session_add at 1.
      eapply (IH (S k)); [simpl; lia|].
      intros store n p Hp. rewrite Nat.add_succ_l, <- Nat.add_succ_r.
      by apply (Hsave store (S n) p).
Qed.

Lemma existsb_row_id fid rows :
  fid ∉ map row_id rows ->
  existsb (fun f => bool_decide (row_id f = fid)) rows = false.
Proof.
  induction rows as [|f rows IH]; simpl; [done|].
  intros [Hne H]%not_elem_of_cons.
  rewrite bool_decide_eq_false_2 by done. by apply IH.
Qed.

Lemma flush_files_succeeds now pending : forall s,
  NoDup (map uuid4 (seq (tx_uuid_calls s) (length pending))) ->
  (forall f, f ∈ tx_files s ->
     row_id f ∉ map uuid4 (seq (tx_uuid_calls s) (length pending))) ->
  exists s', flush_files pending now s = (inr tt, s').
Proof.
  induction pending as [|p rest IH]; intros s Hnd Hold; simpl.
  - by eexists.
  - simpl in Hnd, Hold. apply NoDup_cons in Hnd as [Hfresh Hnd].
    unfold bind at 1. unfold fresh_uuid at 1. unfold bind at 1. simpl.
    rewrite existsb_row_id.
    + apply IH; simpl; [done|].
      intros f [Hf|Hf]%elem_of_app.
      * intros Hin. apply (Hold f Hf). by right.
      * apply list_elem_of_singleton in Hf as ->. done.
    + intros Hin. apply list_elem_of_fmap in Hin as (f & E & Hf).
      apply (Hold f Hf). rewrite <- E. left.
Qed.

(** X14: An upload is accepted when the body is within the cap, the plan is
    known, the uuid drawn for the transfer is free, no save of a named part
    raises, and the uuids drawn for the rows are new and distinct.  The
    answer carries the first uuid drawn and an expiry ten days ahead. *)
Theorem upload_is_accepted w req now limit :
  content_length req <= MAX_CONTENT_LENGTH ->
  PLAN_LIMITS !! default "free" (form_plan_type req) = Some limit ->
  transfers w !! uuid4 (uuid_calls w) = None ->
  (forall store n p,
     named (parts req) !! n = Some p ->
     save_raises store
       (blob_path (uuid4 (S (uuid_calls w) + n)) (part_filename p))
       (part_content p) = false) ->
  NoDup (map uuid4 (seq (S (uuid_calls w) + length (named (parts req)))
                        (length (named (parts req))))) ->
  (forall f, f ∈ file_rows w ->
     row_id f ∉ map uuid4 (seq (S (uuid_calls w) + length (named (parts req)))
                              (length (named (parts req))))) ->
  exists fd w',
    upload_files w req now
    = (UploadSuccess (uuid4 (uuid_calls w)) fd
                     (now + timedelta_days RETENTION_DAYS)
                     ("/download/" +:+ uuid4 (uuid_calls w)),
       w').
Proof.
  intros Hc Hl Ht Hsave Hnd Hold. unfold upload_files.
  rewrite gtb_false by done. rewrite upload_parsed_unfold, Hl.
  assert (MAX_CONTENT_LENGTH < limit)
    by (unfold MAX_CONTENT_LENGTH; apply PLAN_LIMITS_Some in Hl; lia).
  rewrite gtb_false
    by (rewrite payload_open; unfold content_length in Hc; lia).
  rewrite payload_seek0_open.
  unfold create_transfer. unfold bind at 1.
  unfold add_and_flush_transfer, bind at 1, fresh_uuid, begin. simpl.
  rewrite Ht. unfold bind at 1.
  edestruct (store_files_succeeds (uuid4 (uuid_calls w)) (parts req)
               (S (uuid_calls w)) []) as (fd & s2 & E2);
    [|exact Hsave|rewrite E2]; [done|].
  apply store_files_inr in E2 as (N & C & T & Fl & _). simpl in *.
  rewrite pending_for_length in C.
  unfold bind at 1. unfold session_flush.
  edestruct (flush_files_succeeds now (tx_new s2)) as (s3 & E3);
    [| |rewrite E3].
  - simpl. by rewrite C, N, pending_for_length.
  - simpl. rewrite C, N, pending_for_length, Fl. exact Hold.
  - by eexists _, _.
Qed.

(** ** An upload whose save fails *)

Lemma store_files_fails_at tid ps : forall k n q fd s,
  tx_uuid_calls s = k ->
  named ps !! n = Some q ->
  (forall store i p,
     (i < n)%nat -> named ps !! i = Some p ->
     save_raises store (blob_path (uuid4 (k + i)) (part_filename p))
                 (part_content p) = false) ->
  (forall store,
     save_raises store (blob_path (uuid4 (k + n)) (part_filename q))
                 (part_content q) = true) ->
  exists s',
    store_files tid (map open_part ps) fd s
    = (inl (OSError (blob_path (uuid4 (k + n)) (part_filename q))), s')
    /\ tx_blobs s'
       = apply_writes (tx_blobs s) (take n (writes_for k (map open_part ps)))
    /\ tx_uuid_calls s' = S (k + n).
Proof.
  unfold named.
  induction ps as [|q0 ps IH]; intros k n q fd s Hk Hq Hok Hbad; [done|].
  simpl. rewrite filter_cons in Hq, Hok. case_bool_decide as Hname.
  - rewrite decide_False in Hq, Hok by (by intros ?). by eapply IH.
  - rewrite decide_True in Hq, Hok by done.
    unfold bind at 1. unfold fresh_uuid at 1. unfold bind at 1.
    unfold save at 1. simpl.
    change (drop 0 (part_content q0)) with (part_content q0).
    destruct n as [|n]; simpl in Hq.
    + injection Hq as ->.
      pose proof (Hbad (tx_blobs s)) as B.
      rewrite Nat.add_0_r, <- Hk in B. unfold blob_path in B. rewrite B.
      unfold raise. simpl. eexists. rewrite Nat.add_0_r, <- Hk.
      unfold blob_path. split; [reflexivity|]. by split.
    + pose proof (Hok (tx_blobs s) 0%nat q0 (Nat.lt_0_succ n) eq_refl) as G.
      rewrite Nat.add_0_r, <- Hk in G. unfold blob_path in G. rewrite G.
      unfold bind at 1. unfold getsize at 1. simpl.
      rewrite lookup_insert_eq.
      unfold bind at 1. unfold session_add at 1.
      match goal with
      | |- context [store_files tid (map open_part ps) ?fd1 ?s1] =>
          destruct (IH (S k) n q fd1 s1) as (s' & E & Eb & Ec);
            [| exact Hq | | | ]
      end.
      * simpl. by rewrite Hk.
      * intros store i p Hi Hp. rewrite Nat.add_succ_l, <- Nat.add_succ_r.
        apply (Hok store (S i) p); [lia | done].
      * intros store. rewrite Nat.add_succ_l, <- Nat.add_succ_r. apply Hbad.
      * exists s'. rewrite E, Eb, Ec. simpl.
        rewrite <- Nat.add_succ_r, <- Hk. by unfold blob_path.
Qed.

(** X15: When the save of the [n]-th named part raises and the saves before it
    did not, the upload answers 500 with that error and both tables stay as
    they were, but nothing is cleaned up: the blobs of the [n] parts saved
    before are left in the upload directory, where no row points at them. *)
Theorem failed_upload_leaves_saved_blobs w req now limit n q :
  content_length req <= MAX_CONTENT_LENGTH ->
  PLAN_LIMITS !! default "free" (form_plan_type req) = Some limit ->
  transfers w !! uuid4 (uuid_calls w) = None ->
  named (parts req) !! n = Some q ->
  (forall store i p,
     (i < n)%nat -> named (parts req) !! i = Some p ->
     save_raises store
       (blob_path (uuid4 (S (uuid_calls w) + i)) (part_filename p))
       (part_content p) = false) ->
  (forall store,
     save_raises store
       (blob_path (uuid4 (S (uuid_calls w) + n)) (part_filename q))
       (part_content q) = true) ->
  upload_files w req now
  = (CaughtError
       (OSError (blob_path (uuid4 (S (uuid_calls w) + n)) (part_filename q))),
     mkWorld (transfers w) (file_rows w)
       (apply_writes (blobs w)
          (take n (writes_for (S (uuid_calls w))
                              (map open_part (parts req)))))
       (S (S (uuid_calls w) + n))).
Proof.
  intros Hc Hl Ht Hq Hok Hbad. unfold upload_files.
  rewrite gtb_false by done. rewrite upload_parsed_unfold, Hl.
  assert (MAX_CONTENT_LENGTH < limit)
    by (unfold MAX_CONTENT_LENGTH; apply PLAN_LIMITS_Some in Hl; lia).
  rewrite gtb_false
    by (rewrite payload_open; unfold content_length in Hc; lia).
  rewrite payload_seek0_open.
  unfold create_transfer. unfold bind at 1.
  unfold add_and_flush_transfer, bind at 1, fresh_uuid, begin. simpl.
  rewrite Ht. unfold bind at 1.
  edestruct (store_files_fails_at (uuid4 (uuid_calls w)) (parts req)
               (S (uuid_calls w)) n q []) as (s2 & E2 & Eb & Ec);
    [| exact Hq | exact Hok | exact Hbad | rewrite E2]; [done|].
  unfold rollback. simpl in Eb. by rewrite Eb, Ec.
Qed.

(** ** The rows of the named parts *)

(** X2: An accepted upload that found [c] uuids drawn appends exactly one row
    per part with a filename, in the order of the request: the row of the
    [n]-th such part points at the new transfer, has the part's filename as
    its display name, is stored under the name and path built from draw
    [c+1+n] and that filename, and has draw [c+1+m+n] as its identifier,
    [m] being the number of such parts. *)
Theorem row_identifier_and_storage_name w req now tid fd exp url w' :
  upload_files w req now = (UploadSuccess tid fd exp url, w') ->
  length (file_rows w')
  = (length (file_rows w) + length (named (parts req)))%nat
  /\ take (length (file_rows w)) (file_rows w') = file_rows w
  /\ forall n p,
       named (parts req) !! n = Some p ->
       exists f,
         file_rows w' !! (length (file_rows w) + n)%nat = Some f
         /\ transfer_id f = tid
         /\ original_filename f = part_filename p
         /\ filename f
            = storage_filename (uuid4 (S (uuid_calls w) + n)) (part_filename p)
         /\ file_path f
            = blob_path (uuid4 (S (uuid_calls w) + n)) (part_filename p)
         /\ row_id f
            = uuid4 (S (uuid_calls w) + length (named (parts req)) + n).
Proof.
  intros E. apply upload_files_success in E as (-> & F & T & R).
  set (pend := pending_for (uuid4 (uuid_calls w)) (S (uuid_calls w))
                           (map open_part (parts req))) in *.
  assert (length pend = length (named (parts req))) as L
    by apply pending_for_length.
  destruct (rows_for_sizes (S (uuid_calls w) + length pend) now pend)
    as (_ & Lr & _).
  split; [by rewrite R, length_app, Lr, L|].
  split; [by rewrite R, take_app_length|].
  intros n p Hp.
  destruct (named_lookup (uuid4 (uuid_calls w)) (parts req)
              (S (uuid_calls w)) n p Hp) as [_ Hpend].
  fold pend in Hpend.
  eexists. split.
  - rewrite R, lookup_app_r by lia.
    replace (length (file_rows w) + n - length (file_rows w))%nat with n
      by lia.
    by apply rows_for_lookup_Some.
  - simpl. by rewrite L.
Qed.

(** ** Display names and the upload directory *)






End Properties.

(** * The properties on concrete requests *)

(** C1, witness: the second of three blobs cannot be saved (its storage name
    has a directory that does not exist); the request ends in the [except]
    clause and the attempted identifier is not found. *)
Lemma failed_upload_is_invisible_witness :
  @upload_files demo_env empty_world failing_request t0
  = (CaughtError
       (OSError
          "/srv/flash/uploads/00000000-0000-4000-8000-000000000002_a/b.txt"),
     after_failure)
  /\ transfers after_failure = ∅
  /\ fst (get_transfer_info after_failure (demo_uuid4 0) (t0 + second))
     = not_found.
Proof.
  assert (@upload_files demo_env empty_world failing_request t0
          = (CaughtError
               (OSError
                  "/srv/flash/uploads/00000000-0000-4000-8000-000000000002_a/b.txt"),
             after_failure)) as H by (vm_compute; reflexivity).
  destruct (@failed_upload_is_invisible demo_env _ _ _ _ _ H)
    as (A & _ & _ & D).
  split; [exact H|]. split; [exact A|]. apply D. reflexivity.
Defined.

(** C2, on the code: one part without a filename, as a browser sends for an
    empty file input, here with three bytes of content.  The upload succeeds;
    the stored transfer has [total_size] 3 and [file_count] 1, and no file row
    at all. *)
Lemma unnamed_part_breaks_totals :
  status (fst (@upload_files demo_env empty_world unnamed_request t0)) = 200%nat
  /\ transfers (snd (@upload_files demo_env empty_world unnamed_request t0))
       !! demo_uuid4 0
     = Some (mkTransfer "free" 3 1 t0 (t0 + timedelta_days RETENTION_DAYS)
                        0 None None)
  /\ files_of (snd (@upload_files demo_env empty_world unnamed_request t0))
              (demo_uuid4 0) = []
  /\ sum_file_sizes
       (files_of (snd (@upload_files demo_env empty_world unnamed_request t0))
                 (demo_uuid4 0)) = 0.
Proof. vm_compute. repeat split; reflexivity. Qed.

(** C5, counterexample: a transfer without files (the one an upload without
    parts creates) is downloaded; the answer is "No files found" and the
    counter has gone from 0 to 1. *)
Lemma no_files_download_counterexample :
  fst (download_transfer after_empty_upload (demo_uuid4 0) (t0 + second))
  = no_files
  /\ download_count <$> transfers after_empty_upload !! demo_uuid4 0 = Some 0%nat
  /\ download_count <$>
       transfers (snd (download_transfer after_empty_upload (demo_uuid4 0)
                                         (t0 + second))) !! demo_uuid4 0
     = Some 1%nat.
Proof. vm_compute. repeat split; reflexivity. Qed.

(** C5, witness: three downloads, the second one after the expiry, and a
    look at the transfer in between. *)
Lemma download_count_counts_let_through_witness :
  downloads_counted stored_tid
    (fst (@run demo_env stored_world
            [Download stored_tid (t0 + second); Info stored_tid (t0 + second);
             Download stored_tid late; Download stored_tid (t0 + 2 * second)]))
  = 2%nat
  /\ download_count <$>
       transfers
         (snd (@run demo_env stored_world
                 [Download stored_tid (t0 + second);
                  Info stored_tid (t0 + second);
                  Download stored_tid late;
                  Download stored_tid (t0 + 2 * second)])) !! stored_tid
     = Some 2%nat.
Proof.
  split; [vm_compute; reflexivity|].
  destruct (@download_count_counts_let_through demo_env stored_world stored_tid)
    as (_ & _ & _ & T).
  erewrite T by (vm_compute; reflexivity).
  vm_compute. reflexivity.
Defined.

(** C6, counterexample: a request without file parts is answered 200 and
    leaves a transfer behind. *)
Lemma empty_upload_counterexample :
  status (fst (@upload_files demo_env empty_world empty_request t0)) = 200%nat
  /\ transfers after_empty_upload !! demo_uuid4 0
     = Some (mkTransfer "free" 0 0 t0 (t0 + timedelta_days RETENTION_DAYS)
                        0 None None)
  /\ file_rows after_empty_upload = [].
Proof. vm_compute. repeat split; reflexivity. Qed.

(** C6, witness. *)
Lemma empty_upload_is_accepted_witness :
  fst (@upload_files demo_env empty_world empty_request t0)
  = UploadSuccess (demo_uuid4 0) [] (t0 + timedelta_days RETENTION_DAYS)
                  ("/download/" +:+ demo_uuid4 0).
Proof.
  rewrite (@empty_upload_is_accepted demo_env empty_world empty_request t0
             (100 * 1024 * 1024 * 1024));
    [reflexivity | reflexivity | vm_compute; discriminate | reflexivity
    | reflexivity].
Defined.

(** C7, on the code: two named files are uploaded.  The storage names embed
    the second and third uuid drawn; the rows' identifiers are the fourth and
    fifth, drawn by the column default when the rows are inserted; the answer
    reports no identifier. *)
Lemma storage_name_embeds_another_uuid :
  map (fun f => (row_id f, filename f)) (file_rows stored_world)
  = [(demo_uuid4 3, demo_uuid4 1 +:+ "_report.pdf");
     (demo_uuid4 4, demo_uuid4 2 +:+ "_notes.txt")]
  /\ fst (@upload_files demo_env empty_world two_files t0)
     = UploadSuccess (demo_uuid4 0)
         [mkEntry None "report.pdf" 4; mkEntry None "notes.txt" 2]
         (t0 + timedelta_days RETENTION_DAYS) ("/download/" +:+ demo_uuid4 0).
Proof. vm_compute. split; reflexivity. Qed.

(** C8, counterexample: one second after the expiry the three routes are
    called; the transfer is still stored and its blob still readable. *)
Lemma expired_transfer_survives_counterexample :
  (expires_at <$> transfers stored_world !! stored_tid) = Some (late - second)
  /\ map snd (fst (@run demo_env stored_world
                     [Info stored_tid late; Download stored_tid late;
                      Upload empty_request late; Info stored_tid late]))
     = [expired; expired;
        UploadSuccess (demo_uuid4 5) []
                      (late + timedelta_days RETENTION_DAYS)
                      ("/download/" +:+ demo_uuid4 5);
        expired]
  /\ transfers (snd (@run demo_env stored_world
                       [Info stored_tid late; Download stored_tid late;
                        Upload empty_request late; Info stored_tid late]))
       !! stored_tid
     = transfers stored_world !! stored_tid
  /\ is_Some (transfers stored_world !! stored_tid)
  /\ blobs (snd (@run demo_env stored_world
                   [Info stored_tid late; Download stored_tid late;
                    Upload empty_request late; Info stored_tid late]))
       !! @blob_path demo_env (demo_uuid4 1) "report.pdf"
     = Some [x25; x50; x44; x46].
Proof.
  repeat split; try (vm_compute; reflexivity).
  vm_compute. eexists. reflexivity.
Qed.

(** C8, witness. *)
Lemma expired_transfer_is_kept_witness :
  is_Some (transfers stored_world !! stored_tid)
  /\ get_transfer_info
       (snd (@run demo_env stored_world
               [Download stored_tid (t0 + second); Upload empty_request late]))
       stored_tid late
     = (expired,
        snd (@run demo_env stored_world
               [Download stored_tid (t0 + second); Upload empty_request late])).
Proof.
  assert (transfers stored_world !! stored_tid
          = Some (mkTransfer "free" 6 2 t0 (t0 + timedelta_days RETENTION_DAYS)
                             0 None None)) as H by (vm_compute; reflexivity).
  split; [rewrite H; by eexists|].
  destruct (@expired_transfer_is_kept demo_env stored_world
              [Download stored_tid (t0 + second); Upload empty_request late]
              stored_tid _ H) as (_ & _ & E).
  apply E. vm_compute. reflexivity.
Defined.



(** C3, witness: an unknown plan is refused and nothing is stored; a small
    upload under the free plan is not answered 400. *)
Lemma quota_check_decides_witness :
  @upload_parsed demo_env empty_world "gold" [open_part report_pdf] t0
  = (invalid_plan, empty_world)
  /\ (status (fst (@upload_parsed demo_env empty_world "free"
                                  [open_part report_pdf] t0)) = 400%nat
      <-> payload [open_part report_pdf] > 100 * 1024 ^ 3).
Proof.
  split.
  - apply (@quota_check_decides demo_env empty_world "gold"
             [open_part report_pdf] t0). reflexivity.
  - apply (@quota_check_decides demo_env empty_world "free"
             [open_part report_pdf] t0). reflexivity.
Defined.

(** C10, witness: a body of 206 bytes is not answered with the quota
    refusal. *)
Lemma quota_refusal_unreachable_witness :
  content_length two_files = 206
  /\ fst (@upload_files demo_env empty_world two_files t0)
     <> quota_exceeded "free".
Proof.
  split; [reflexivity|].
  apply (@quota_refusal_unreachable demo_env empty_world two_files t0).
Defined.

(** The totals of an upload of two named files. *)
Lemma named_upload_totals_witness :
  exists t,
    transfers stored_world !! stored_tid = Some t
    /\ total_size t = sum_file_sizes (files_of stored_world stored_tid)
    /\ total_size t = content_length two_files - Z.of_nat (framing two_files)
    /\ file_count t = length (files_of stored_world stored_tid)
    /\ file_count t = length (parts two_files).
Proof.
  assert (@upload_files demo_env empty_world two_files t0
          = (UploadSuccess stored_tid
               [mkEntry None "report.pdf" 4; mkEntry None "notes.txt" 2]
               (t0 + timedelta_days RETENTION_DAYS)
               ("/download/" +:+ stored_tid),
             stored_world)) as H by (vm_compute; reflexivity).
  apply (@named_upload_totals demo_env _ _ _ _ _ _ _ _ H).
  - repeat constructor; discriminate.
  - reflexivity.
Defined.

(** The transfer stored at [t0] is shown a second before its expiry and
    refused a second after. *)
Lemma expiry_boundary_witness :
  status (fst (get_transfer_info stored_world stored_tid
                 (t0 + timedelta_days RETENTION_DAYS - second))) = 200%nat
  /\ status (fst (get_transfer_info stored_world stored_tid late)) = 410%nat.
Proof.
  assert (transfers stored_world !! stored_tid
          = Some (mkTransfer "free" 6 2 t0 (t0 + timedelta_days RETENTION_DAYS)
                             0 None None)) as H by (vm_compute; reflexivity).
  destruct (expiry_boundary stored_world stored_tid _ t0 H) as (_ & _ & A & B).
  split; [exact A | exact B].
Defined.

(** ** The further properties on concrete requests *)

(** The 257th uuid of the concrete generator repeats the first: an upload
    that draws it while the first transfer is stored is refused. *)
Lemma taken_identifier_is_refused_witness :
  fst (@upload_files demo_env
         (mkWorld (transfers stored_world) (file_rows stored_world)
                  (blobs stored_world) 256)
         two_files late)
  = CaughtError (IntegrityError "transfer" stored_tid).
Proof.
  rewrite (@taken_identifier_is_refused demo_env
             (mkWorld (transfers stored_world) (file_rows stored_world)
                      (blobs stored_world) 256)
             two_files late
             (mkTransfer "free" 6 2 t0 (t0 + timedelta_days RETENTION_DAYS)
                         0 None None)
             (100 * 1024 * 1024 * 1024));
    [reflexivity | vm_compute; discriminate | reflexivity
    | vm_compute; reflexivity].
Defined.

(** Two downloads and an unrelated upload later, the stored transfer reads
    as before with a count of 2. *)
Lemma stored_transfer_reads_the_same_witness :
  fst (get_transfer_info
         (snd (@run demo_env stored_world
                 [Download stored_tid (t0 + second); Upload empty_request t0;
                  Download stored_tid (t0 + second)]))
         stored_tid (t0 + 2 * second))
  = TransferSnapshot stored_tid
      (mkTransfer "free" 6 2 t0 (t0 + timedelta_days RETENTION_DAYS) 2
                  None None)
      (map entry_of (files_of stored_world stored_tid)).
Proof.
  rewrite (@stored_transfer_reads_the_same demo_env stored_world
             [Download stored_tid (t0 + second); Upload empty_request t0;
              Download stored_tid (t0 + second)]
             stored_tid
             (mkTransfer "free" 6 2 t0 (t0 + timedelta_days RETENTION_DAYS)
                         0 None None)
             (t0 + 2 * second));
    [ | vm_compute; reflexivity | vm_compute; discriminate].
  vm_compute. reflexivity.
Defined.

(** The two blobs of [two_files] are the bytes that were sent. *)
Lemma stored_blobs_are_the_uploaded_bytes_witness :
  length (file_rows stored_world)
  = (length (file_rows empty_world) + length (named (parts two_files)))%nat
  /\ forall n p,
       named (parts two_files) !! n = Some p ->
       exists f,
         file_rows stored_world !! (length (file_rows empty_world) + n)%nat
         = Some f
         /\ transfer_id f = stored_tid
         /\ original_filename f = part_filename p
         /\ file_size f = Z.of_nat (length (part_content p))
         /\ blobs stored_world !! file_path f = Some (part_content p).
Proof.
  assert (@upload_files demo_env empty_world two_files t0
          = (UploadSuccess stored_tid
               [mkEntry None "report.pdf" 4; mkEntry None "notes.txt" 2]
               (t0 + timedelta_days RETENTION_DAYS)
               ("/download/" +:+ stored_tid),
             stored_world)) as H by (vm_compute; reflexivity).
  apply (@stored_blobs_are_the_uploaded_bytes demo_env _ _ _ _ _ _ _ _ H).
  compute_done.
Defined.

(** A download of the transfer just uploaded sends report.pdf. *)
Lemma upload_then_download_witness :
  fst (download_transfer stored_world stored_tid (t0 + second))
  = SendFile (@blob_path demo_env (demo_uuid4 1) "report.pdf") "report.pdf"
             [x25; x50; x44; x46]
  /\ download_count <$> transfers stored_world !! stored_tid = Some 0%nat
  /\ download_count <$>
       transfers (snd (download_transfer stored_world stored_tid
                                         (t0 + second))) !! stored_tid
     = Some 1%nat.
Proof.
  assert (@upload_files demo_env empty_world two_files t0
          = (UploadSuccess stored_tid
               [mkEntry None "report.pdf" 4; mkEntry None "notes.txt" 2]
               (t0 + timedelta_days RETENTION_DAYS)
               ("/download/" +:+ stored_tid),
             stored_world)) as H by (vm_compute; reflexivity).
  apply (@upload_then_download demo_env _ _ _ _ _ _ _ _ (t0 + second) H).
  - reflexivity.
  - compute_done.
  - vm_compute. discriminate.
Defined.

(** A look at the transfer just uploaded. *)
Lemma upload_then_info_witness :
  stored_tid = demo_uuid4 (uuid_calls empty_world)
  /\ dom (transfers stored_world) = {[stored_tid]} ∪ dom (transfers empty_world)
  /\ get_transfer_info stored_world stored_tid (late + second)
     = (expired, stored_world).
Proof.
  assert (@upload_files demo_env empty_world two_files t0
          = (UploadSuccess stored_tid
               [mkEntry None "report.pdf" 4; mkEntry None "notes.txt" 2]
               (t0 + timedelta_days RETENTION_DAYS)
               ("/download/" +:+ stored_tid),
             stored_world)) as H by (vm_compute; reflexivity).
  destruct (@upload_then_info demo_env _ _ _ _ _ _ _ _ H eq_refl)
    as (A & _ & _ & _ & B & _ & _ & C).
  split; [exact A|]. split; [exact B|]. apply C. vm_compute. reflexivity.
Defined.

(** The upload of [two_files] changed the path of report.pdf, which is one
    of its own. *)
Lemma upload_writes_only_its_own_paths_witness :
  exists k p,
    (S (uuid_calls empty_world) <= k
     < uuid_calls (snd (@upload_files demo_env empty_world two_files t0)))%nat
    /\ p ∈ parts two_files /\ part_filename p <> ""
    /\ @blob_path demo_env (demo_uuid4 1) "report.pdf"
       = @blob_path demo_env (demo_uuid4 k) (part_filename p).
Proof.
  apply (@upload_writes_only_its_own_paths demo_env empty_world two_files t0
           (@blob_path demo_env (demo_uuid4 1) "report.pdf")).
  vm_compute. discriminate.
Defined.

(** The upload of [two_files] into the empty store meets the conditions. *)
Lemma upload_is_accepted_witness :
  exists fd w',
    @upload_files demo_env empty_world two_files t0
    = (UploadSuccess (demo_uuid4 0) fd (t0 + timedelta_days RETENTION_DAYS)
                     ("/download/" +:+ demo_uuid4 0),
       w').
Proof.
  apply (@upload_is_accepted demo_env empty_world two_files t0
           (100 * 1024 * 1024 * 1024)).
  - vm_compute. discriminate.
  - reflexivity.
  - reflexivity.
  - intros store n p H. destruct n as [|[|n]]; vm_compute in H;
      [injection H as <-; reflexivity .. | discriminate].
  - compute_done.
  - intros f H. simpl in H. by apply elem_of_nil in H.
Defined.

(** The second of the three parts of [failing_request] cannot be saved; the
    blob of the first is left behind. *)
Lemma failed_upload_leaves_saved_blobs_witness :
  blobs after_failure !! @blob_path demo_env (demo_uuid4 1) "report.pdf"
  = Some [x25; x50; x44; x46]
  /\ file_rows after_failure = [].
Proof.
  unfold after_failure.
  rewrite (@failed_upload_leaves_saved_blobs demo_env empty_world
             failing_request t0 (500 * 1024 * 1024 * 1024) 1 nested_name).
  - split; vm_compute; reflexivity.
  - vm_compute. discriminate.
  - reflexivity.
  - reflexivity.
  - reflexivity.
  - intros store i p Hi H. destruct i as [|i]; [|lia].
    vm_compute in H. injection H as <-. reflexivity.
  - intros store. reflexivity.
Defined.

(** ** Display names, on concrete requests *)





(** The rows of an upload of two named files. *)
Lemma row_identifier_and_storage_name_witness :
  length (file_rows stored_world)
  = (length (file_rows empty_world) + length (named (parts two_files)))%nat
  /\ take (length (file_rows empty_world)) (file_rows stored_world)
     = file_rows empty_world
  /\ forall n p,
       named (parts two_files) !! n = Some p ->
       exists f,
         file_rows stored_world !! (length (file_rows empty_world) + n)%nat
         = Some f
         /\ transfer_id f = stored_tid
         /\ original_filename f = part_filename p
         /\ filename f
            = storage_filename (demo_uuid4 (S (uuid_calls empty_world) + n))
                               (part_filename p)
         /\ file_path f
            = @blob_path demo_env
                (demo_uuid4 (S (uuid_calls empty_world) + n))
                (part_filename p)
         /\ row_id f
            = demo_uuid4 (S (uuid_calls empty_world)
                          + length (named (parts two_files)) + n).
Proof.
  assert (@upload_files demo_env empty_world two_files t0
          = (UploadSuccess stored_tid
               [mkEntry None "report.pdf" 4; mkEntry None "notes.txt" 2]
               (t0 + timedelta_days RETENTION_DAYS)
               ("/download/" +:+ stored_tid),
             stored_world)) as H by (vm_compute; reflexivity).
  exact (@row_identifier_and_storage_name demo_env _ _ _ _ _ _ _ _ H).
Defined.
